(** * Fast-Search-X-Ways: the DirectStorage ingestion pipeline of [Search.cpp]

    A shallow embedding of [src/Search.cpp].  The program is a DLL with two
    entry points ([XWF_Run], [XWF_Exit]) over six global COM pointers.  All
    of its work is calls into DirectStorage, Direct3D 12, RMM and cuDF, so
    the embedding is a small state-and-trace monad:

    - the state is the six global [ComPtr]s (the command list carrying the
      commands recorded into it, which the program never resets);
    - every API call the source makes is logged as an [event], in program
      order, together with the [HRESULT] it returned;
    - what the outside world answers (HRESULTs, the disk, whether the GPU
      has retired the copy by the time the readback buffer is mapped, the
      pattern matcher) is a [world] record the functions are parameterised
      by, so every theorem holds for every behaviour of the collaborators;
    - a C++ exception derived from [std::exception] is the outcome [Threw];
      dereferencing a null [ComPtr] is the outcome [Crashed] (undefined
      behaviour, which no [catch (const std::exception&)] intercepts).

    The path reaches [OpenFile] through [c_str()], so the file opened is
    the one named by the characters before the first NUL.  The size used
    throughout an ingestion is the one [GetFileInformation] wrote, and the
    [std::vector] of line 77 may throw.  What the mapped readback buffer
    shows when the GPU has not retired the copy is left to the world.

    Left out: the destructors of the function-local [ComPtr]s (the file
    handle and the two buffers) are not logged; a size is an [N], every file
    size fitting the [uint64_t] of the source, which does no arithmetic on
    it. *)

From Stdlib Require Import ZArith NArith List String Bool Lia.
From Stdlib Require Import Strings.Byte.
From stdpp Require Import base option list gmap strings.

Import ListNotations.
Open Scope string_scope.
Open Scope list_scope.

(** ** HRESULT *)

Module Win32.

(** A 32-bit signed status code; [FAILED(hr)] is [hr < 0]. *)
Definition HRESULT := Z.

Definition FAILED (hr : HRESULT) : bool := (hr <? 0)%Z.

Definition S_OK : HRESULT := 0%Z.
(** 0x8007000E, 0x80070057, 0x80070002 and 0x80004005 read as [int32]. *)
Definition E_OUTOFMEMORY : HRESULT := (-2147024882)%Z.
Definition E_INVALIDARG : HRESULT := (-2147024809)%Z.
Definition E_FILE_NOT_FOUND : HRESULT := (-2147024894)%Z.
Definition E_FAIL : HRESULT := (-2147467259)%Z.

End Win32.
Export Win32.

(** ** Data model *)

(** [Microsoft::WRL::ComPtr<T>]: null, or holding an object whose state is
    a [T]. *)
Definition ComPtr (T : Type) : Type := option T.

Definition is_null {T} (p : ComPtr T) : bool :=
  match p with Some _ => false | None => true end.

Inductive heap_type := D3D12_HEAP_TYPE_DEFAULT | D3D12_HEAP_TYPE_READBACK.

Inductive resource_state :=
  D3D12_RESOURCE_STATE_COPY_DEST | D3D12_RESOURCE_STATE_COPY_SOURCE.

(** What has been recorded into the graphics command list; the string names
    the file whose buffers the command refers to. *)
Inductive gpu_command :=
| Cmd_ResourceBarrier (file : string) (before after : resource_state)
| Cmd_CopyResource (file : string).

(** The six globals of lines 17-22, in declaration order. *)
Inductive global_name :=
| g_storageFactory | g_storageQueue | g_device
| g_commandQueue | g_commandAllocator | g_commandList.

Record globals := mk_globals {
  storageFactory : ComPtr unit;
  storageQueue : ComPtr unit;
  device : ComPtr unit;
  commandQueue : ComPtr unit;
  commandAllocator : ComPtr unit;
  commandList : ComPtr (list gpu_command)
}.

(** Static initialisation: every [ComPtr] starts null. *)
Definition never_initialised : globals :=
  mk_globals None None None None None None.

Definition holds (g : globals) (n : global_name) : bool :=
  match n with
  | g_storageFactory => negb (is_null (storageFactory g))
  | g_storageQueue => negb (is_null (storageQueue g))
  | g_device => negb (is_null (device g))
  | g_commandQueue => negb (is_null (commandQueue g))
  | g_commandAllocator => negb (is_null (commandAllocator g))
  | g_commandList => negb (is_null (commandList g))
  end.

Definition all_names : list global_name :=
  [g_storageFactory; g_storageQueue; g_device;
   g_commandQueue; g_commandAllocator; g_commandList].

Definition all_valid (g : globals) : bool := forallb (holds g) all_names.
Definition none_valid (g : globals) : bool :=
  forallb (fun n => negb (holds g n)) all_names.

(** ** Trace *)

Inductive event :=
(* initialisation *)
| Ev_DStorageGetFactory (hr : HRESULT)
| Ev_D3D12CreateDevice (hr : HRESULT)
| Ev_CreateCommandQueue (hr : HRESULT)
| Ev_CreateCommandAllocator (hr : HRESULT)
| Ev_CreateCommandList (hr : HRESULT)
| Ev_CreateQueue (hr : HRESULT)
(* a global ComPtr gives up the object it holds *)
| Ev_Release (n : global_name)
(* ingestion *)
| Ev_OpenFile (file_path : string) (hr : HRESULT)
| Ev_GetFileInformation (file_path : string) (hr : HRESULT)
| Ev_CreateCommittedResource (heap : heap_type) (Width : N) (hr : HRESULT)
| Ev_EnqueueReadFile (file_path : string) (offset size : N)
| Ev_Submit
| Ev_WaitForIdle
| Ev_ResourceBarrier
| Ev_CopyResource
| Ev_ExecuteCommandLists (lists : list gpu_command)
| Ev_Signal (fence : ComPtr unit) (value : N)
| Ev_Map (hr : HRESULT)
| Ev_Unmap
(* pattern stage and console *)
| Ev_get_current_device_resource
| Ev_contains (rows : nat) (pattern : string)
| Ev_cout (file_path pattern : string) (result : list bool)
| Ev_cerr_file (file_path what : string)
| Ev_cerr_run (what : string).

(** ** The collaborators *)

Record world := mk_world {
  (* HRESULTs of the six creation calls of initialize_direct_storage *)
  hr_DStorageGetFactory : HRESULT;
  hr_D3D12CreateDevice : HRESULT;
  hr_CreateCommandQueue : HRESULT;
  hr_CreateCommandAllocator : HRESULT;
  hr_CreateCommandList : HRESULT;
  hr_CreateQueue : HRESULT;
  (* the disk: path |-> true contents *)
  disk : gmap string (list byte);
  (* per file name handed to OpenFile: the HRESULTs of the open and of the
     size query, and the size GetFileInformation writes *)
  hr_OpenFile : string -> HRESULT;
  hr_GetFileInformation : string -> HRESULT;
  file_size : string -> N;
  (* std::vector<uint8_t>(n): [Some what] when the allocation throws *)
  vector_failure : N -> option string;
  (* per path being ingested *)
  hr_CreateCommittedResource : string -> heap_type -> N -> HRESULT;
  hr_Map : string -> HRESULT;
  (* has the GPU retired the submitted command list when Map is called? *)
  copy_retired : string -> list gpu_command -> bool;
  (* what the mapped readback buffer shows when it has not: anything *)
  unretired_view : string -> list gpu_command -> list byte;
  (* what a freshly committed buffer happens to hold *)
  uninitialised_memory : list byte;
  (* rmm::mr::get_current_device_resource: [Some what] when it throws *)
  rmm_failure : option string;
  (* lines 147-151, the std::string, the column and cudf::strings::contains
     on it: [inl what] when one of them throws *)
  cudf_contains : list byte -> string -> string + list bool
}.

(** ** The state-and-trace monad *)

Inductive outcome (A : Type) :=
| Returned (a : A)
| Threw (what : string)
| Crashed.
Arguments Returned {A} a.
Arguments Threw {A} what.
Arguments Crashed {A}.

Definition M (A : Type) : Type := globals -> outcome A * globals * list event.

Definition ret {A} (a : A) : M A := fun g => (Returned a, g, []).

Definition bind {A B} (m : M A) (k : A -> M B) : M B := fun g =>
  match m g with
  | (Returned a, g1, e1) =>
      match k a g1 with (r, g2, e2) => (r, g2, e1 ++ e2) end
  | (Threw what, g1, e1) => (Threw what, g1, e1)
  | (Crashed, g1, e1) => (Crashed, g1, e1)
  end.

Notation "x <- m ;; k" := (bind m (fun x => k))
  (at level 100, m at next level, right associativity).
Notation "m ;;; k" := (bind m (fun _ => k))
  (at level 100, right associativity).

(** [throw std::runtime_error(what)] *)
Definition throw {A} (what : string) : M A := fun g => (Threw what, g, []).

(** [try { body } catch (const std::exception& e) { handler e.what() }]:
    a crash is not an exception and passes through. *)
Definition try_catch {A} (body : M A) (handler : string -> M A) : M A := fun g =>
  match body g with
  | (Threw what, g1, e1) =>
      match handler what g1 with (r, g2, e2) => (r, g2, e1 ++ e2) end
  | other => other
  end.

Definition emit (e : event) : M unit := fun g => (Returned tt, g, [e]).

(** [p->...] on a global: null is undefined behaviour. *)
Definition deref {T} (p : globals -> ComPtr T) : M T := fun g =>
  match p g with
  | Some o => (Returned o, g, [])
  | None => (Crashed, g, [])
  end.

Definition outcome_of {A} (x : outcome A * globals * list event) : outcome A := x.1.1.
Definition state_of {A} (x : outcome A * globals * list event) : globals := x.1.2.
Definition trace_of {A} (x : outcome A * globals * list event) : list event := x.2.

(** ** Assigning the globals *)

Definition set_storageFactory (p : ComPtr unit) (g : globals) : globals :=
  mk_globals p (storageQueue g) (device g) (commandQueue g)
             (commandAllocator g) (commandList g).
Definition set_storageQueue (p : ComPtr unit) (g : globals) : globals :=
  mk_globals (storageFactory g) p (device g) (commandQueue g)
             (commandAllocator g) (commandList g).
Definition set_device (p : ComPtr unit) (g : globals) : globals :=
  mk_globals (storageFactory g) (storageQueue g) p (commandQueue g)
             (commandAllocator g) (commandList g).
Definition set_commandQueue (p : ComPtr unit) (g : globals) : globals :=
  mk_globals (storageFactory g) (storageQueue g) (device g) p
             (commandAllocator g) (commandList g).
Definition set_commandAllocator (p : ComPtr unit) (g : globals) : globals :=
  mk_globals (storageFactory g) (storageQueue g) (device g) (commandQueue g)
             p (commandList g).
Definition set_commandList (p : ComPtr (list gpu_command)) (g : globals) : globals :=
  mk_globals (storageFactory g) (storageQueue g) (device g) (commandQueue g)
             (commandAllocator g) p.

(** Nulls the named global. *)
Definition clear (n : global_name) : globals -> globals :=
  match n with
  | g_storageFactory => set_storageFactory None
  | g_storageQueue => set_storageQueue None
  | g_device => set_device None
  | g_commandQueue => set_commandQueue None
  | g_commandAllocator => set_commandAllocator None
  | g_commandList => set_commandList None
  end.

(** [ComPtr::Reset()], and equally [ComPtr::operator&] (which is
    [ReleaseAndGetAddressOf]): release the held object, if any, and become
    null.  On a null pointer nothing happens. *)
Definition ComPtr_Reset (n : global_name) : M unit := fun g =>
  (Returned tt, clear n g, if holds g n then [Ev_Release n] else []).

(** A creation call [hr = Create...(..., &global)]: the out-parameter is
    released first; the object is stored when the call succeeds. *)
Definition create (n : global_name) (hr : HRESULT) (ev : HRESULT -> event)
    (store : globals -> globals) : M HRESULT :=
  ComPtr_Reset n ;;;
  emit (ev hr) ;;;
  (fun g => (Returned hr, if FAILED hr then g else store g, [])).

(** ** initialize_direct_storage (lines 24-62) *)

Definition initialize_direct_storage (w : world) : M unit :=
  hr <- create g_storageFactory (hr_DStorageGetFactory w) Ev_DStorageGetFactory
          (set_storageFactory (Some tt)) ;;
  if FAILED hr then throw "Failed to initialize DirectStorage factory." else
  hr <- create g_device (hr_D3D12CreateDevice w) Ev_D3D12CreateDevice
          (set_device (Some tt)) ;;
  if FAILED hr then throw "Failed to create D3D12 device." else
  _ <- deref device ;;
  hr <- create g_commandQueue (hr_CreateCommandQueue w) Ev_CreateCommandQueue
          (set_commandQueue (Some tt)) ;;
  if FAILED hr then throw "Failed to create D3D12 command queue." else
  _ <- deref device ;;
  hr <- create g_commandAllocator (hr_CreateCommandAllocator w)
          Ev_CreateCommandAllocator (set_commandAllocator (Some tt)) ;;
  if FAILED hr then throw "Failed to create D3D12 command allocator." else
  _ <- deref device ;;
  hr <- create g_commandList (hr_CreateCommandList w) Ev_CreateCommandList
          (set_commandList (Some [])) ;;
  if FAILED hr then throw "Failed to create D3D12 command list." else
  _ <- deref storageFactory ;;
  hr <- create g_storageQueue (hr_CreateQueue w) Ev_CreateQueue
          (set_storageQueue (Some tt)) ;;
  if FAILED hr then throw "Failed to create DirectStorage queue." else
  ret tt.

(** ** The device-side collaborators used by one ingestion *)

(** [p->...] on a local [ComPtr]. *)
Definition deref_local {T} (p : ComPtr T) : M T := fun g =>
  match p with
  | Some o => (Returned o, g, [])
  | None => (Crashed, g, [])
  end.

(** Modelled from the spec: [IDStorageFactory::OpenFile] is declared in
    directstorage.h, which is not among the sources.  "open(file_path) ->
    FileHandle, failing with FileOpenError if the path does not exist or is
    inaccessible": a path absent from the disk fails; a present one fails
    when the world says so.  The handle stands for the file's bytes. *)
Definition OpenFile (w : world) (file_path : string) : HRESULT * ComPtr (list byte) :=
  match disk w !! file_path with
  | None => (E_FILE_NOT_FOUND, None)
  | Some bytes =>
      let hr := hr_OpenFile w file_path in
      (hr, if FAILED hr then None else Some bytes)
  end.

(** Modelled from the spec: [ID3D12Device::CreateCommittedResource] is
    declared in d3d12.h, which is not among the sources.  "Fails with
    AllocationError on out-of-memory or invalid size (size_bytes == 0 is
    invalid)".  A created buffer is [Width] bytes of whatever the memory
    held. *)
Definition CreateCommittedResource (w : world) (file_path : string)
    (heap : heap_type) (Width : N) : HRESULT * ComPtr (list byte) :=
  let hr := if (Width =? 0)%N then E_INVALIDARG
            else hr_CreateCommittedResource w file_path heap Width in
  (hr, if FAILED hr then None
       else Some (resize (N.to_nat Width) x00 (uninitialised_memory w))).

(** [std::string::c_str()] as the callee reads it: the characters before
    the first NUL. *)
Fixpoint c_str (s : string) : string :=
  match s with
  | EmptyString => EmptyString
  | String c rest =>
      if Ascii.eqb c Ascii.zero then EmptyString else String c (c_str rest)
  end.

(** What a destination buffer holds once a read of [n] bytes from offset 0
    of the file has completed: the file's first [n] bytes, as far as the
    file goes, over what the buffer held. *)
Definition read_region (dst file : list byte) (n : N) : list byte :=
  let k := min (N.to_nat n) (length file) in
  take k file ++ drop k dst.

(** [memcpy(dst, src, n)] on byte sequences. *)
Definition memcpy (dst src : list byte) (n : N) : list byte :=
  take (N.to_nat n) src ++ drop (N.to_nat n) dst.

(** [commandList->ResourceBarrier/CopyResource]: appends to what the command
    list has recorded. *)
Definition record_command (c : gpu_command) : M unit := fun g =>
  match commandList g with
  | Some recorded => (Returned tt, set_commandList (Some (recorded ++ [c])) g, [])
  | None => (Crashed, g, [])
  end.

(** ** read_file_direct_storage (lines 64-139) *)

Definition read_file_direct_storage (w : world) (file_path : string) : M (list byte) :=
  _ <- deref storageFactory ;;
  let name := c_str file_path in
  let '(hr, storageFile) := OpenFile w name in
  emit (Ev_OpenFile name hr) ;;;
  if FAILED hr then throw ("Failed to open file with DirectStorage: " +:+ file_path) else
  file <- deref_local storageFile ;;
  let hr := hr_GetFileInformation w name in
  let fileSize := file_size w name in
  emit (Ev_GetFileInformation name hr) ;;;
  if FAILED hr then throw ("Failed to get file size for: " +:+ file_path) else
  match vector_failure w fileSize with
  | Some what => throw what
  | None =>
  let fileContent := replicate (N.to_nat fileSize) x00 in
  _ <- deref device ;;
  let '(hr, gpuBuffer) :=
    CreateCommittedResource w file_path D3D12_HEAP_TYPE_DEFAULT fileSize in
  emit (Ev_CreateCommittedResource D3D12_HEAP_TYPE_DEFAULT fileSize hr) ;;;
  if FAILED hr then throw ("Failed to create GPU buffer for file: " +:+ file_path) else
  gpu <- deref_local gpuBuffer ;;
  _ <- deref storageQueue ;;
  emit (Ev_EnqueueReadFile name 0 fileSize) ;;;
  _ <- deref storageQueue ;;
  emit Ev_Submit ;;;
  _ <- deref storageQueue ;;
  emit Ev_WaitForIdle ;;;
  (* the storage queue is idle: the requested bytes are in gpuBuffer *)
  let gpu := read_region gpu file fileSize in
  _ <- deref device ;;
  let '(hr, readbackBuffer) :=
    CreateCommittedResource w file_path D3D12_HEAP_TYPE_READBACK fileSize in
  emit (Ev_CreateCommittedResource D3D12_HEAP_TYPE_READBACK fileSize hr) ;;;
  if FAILED hr then throw ("Failed to create readback buffer for file: " +:+ file_path) else
  _ <- deref_local readbackBuffer ;;
  record_command (Cmd_ResourceBarrier file_path D3D12_RESOURCE_STATE_COPY_DEST
                                      D3D12_RESOURCE_STATE_COPY_SOURCE) ;;;
  emit Ev_ResourceBarrier ;;;
  record_command (Cmd_CopyResource file_path) ;;;
  emit Ev_CopyResource ;;;
  _ <- deref commandQueue ;;
  submitted <- (fun g => (Returned (default [] (commandList g)), g, [])) ;;
  emit (Ev_ExecuteCommandLists submitted) ;;;
  _ <- deref commandQueue ;;
  emit (Ev_Signal None 0) ;;;
  let hr := hr_Map w file_path in
  emit (Ev_Map hr) ;;;
  if FAILED hr then throw ("Failed to map readback buffer for file: " +:+ file_path) else
  (* the mapping shows the copy only if the GPU has retired it *)
  let mappedData :=
    if copy_retired w file_path submitted then gpu
    else resize (N.to_nat fileSize) x00 (unretired_view w file_path submitted) in
  let fileContent := memcpy fileContent mappedData fileSize in
  emit Ev_Unmap ;;;
  ret fileContent
  end.

(** ** search_files_with_regex (lines 141-158) *)

Definition get_current_device_resource (w : world) : M unit :=
  emit Ev_get_current_device_resource ;;;
  match rmm_failure w with
  | Some what => throw what
  | None => ret tt
  end.

(** The body of the [for] loop: one [try]/[catch] per file.  Lines 147-151
    (the string, the column and [cudf::strings::contains]) are the black-box
    pattern stage [cudf_contains]. *)
Definition process_file (w : world) (regex_pattern file_path : string) : M unit :=
  try_catch
    (fileContent <- read_file_direct_storage w file_path ;;
     let content := fileContent in
     emit (Ev_contains (length content) regex_pattern) ;;;
     match cudf_contains w content regex_pattern with
     | inl what => throw what
     | inr result => emit (Ev_cout file_path regex_pattern result)
     end)
    (fun what => emit (Ev_cerr_file file_path what)).

Fixpoint for_each_file (w : world) (regex_pattern : string)
    (file_paths : list string) : M unit :=
  match file_paths with
  | [] => ret tt
  | file_path :: rest =>
      process_file w regex_pattern file_path ;;;
      for_each_file w regex_pattern rest
  end.

Definition search_files_with_regex (w : world) (file_paths : list string)
    (regex_pattern : string) : M unit :=
  get_current_device_resource w ;;;
  for_each_file w regex_pattern file_paths.

(** ** XWF_Run (lines 160-178) and XWF_Exit (lines 180-190) *)

Definition run_regex_pattern : string := "your-regex-pattern".
Definition run_file_paths : list string := ["file1.txt"; "file2.txt"; "file3.txt"].

Definition XWF_Run (w : world) : M Z :=
  caught <- try_catch
              (initialize_direct_storage w ;;;
               search_files_with_regex w run_file_paths run_regex_pattern ;;;
               ret false)
              (fun what => emit (Ev_cerr_run what) ;;; ret true) ;;
  if caught : bool then ret 1%Z else ret 0%Z.

Definition XWF_Exit : M Z :=
  ComPtr_Reset g_storageQueue ;;;
  ComPtr_Reset g_storageFactory ;;;
  ComPtr_Reset g_commandList ;;;
  ComPtr_Reset g_commandAllocator ;;;
  ComPtr_Reset g_commandQueue ;;;
  ComPtr_Reset g_device ;;;
  ret 0%Z.

(** ** What the console shows per file *)

Inductive report :=
| Report_match (file_path pattern : string) (result : list bool)
| Report_error (file_path what : string).

Definition report_path (r : report) : string :=
  match r with
  | Report_match p _ _ => p
  | Report_error p _ => p
  end.

(** The per-file result: [matched] is what the match line reports (some row
    of the column is true), and an error line carries no match. *)
Definition matched (r : report) : bool :=
  match r with
  | Report_match _ _ result => existsb id result
  | Report_error _ _ => false
  end.

Definition error (r : report) : option string :=
  match r with
  | Report_match _ _ _ => None
  | Report_error _ what => Some what
  end.

Definition report_of (e : event) : option report :=
  match e with
  | Ev_cout p pat result => Some (Report_match p pat result)
  | Ev_cerr_file p what => Some (Report_error p what)
  | _ => None
  end.

Definition reports (evs : list event) : list report := omap report_of evs.

(** ** Observations on a trace *)

Definition opened_of (e : event) : option string :=
  match e with Ev_OpenFile p _ => Some p | _ => None end.

(** The paths handed to [OpenFile], in order. *)
Definition opened (evs : list event) : list string := omap opened_of evs.

Definition pattern_of (e : event) : option string :=
  match e with
  | Ev_contains _ pat => Some pat
  | Ev_cout _ pat _ => Some pat
  | _ => None
  end.

(** The patterns handed to the pattern stage or printed, in order. *)
Definition patterns (evs : list event) : list string := omap pattern_of evs.

(** Calls that touch DirectStorage or Direct3D (everything except the RMM
    lookup, the pattern stage and the console). *)
Definition touches_device (e : event) : bool :=
  match e with
  | Ev_get_current_device_resource | Ev_contains _ _
  | Ev_cout _ _ _ | Ev_cerr_file _ _ | Ev_cerr_run _ => false
  | _ => true
  end.

(** An event that could order host code after GPU work: the storage queue's
    idle wait, or a signal on an actual fence. *)
Definition synchronises (e : event) : bool :=
  match e with
  | Ev_WaitForIdle => true
  | Ev_Signal (Some _) _ => true
  | _ => false
  end.

(** The property the spec asks of a trace: whenever the readback buffer is
    mapped, something has synchronised since the last command-list
    submission.  [in_flight] says a submission is still unaccounted for. *)
Fixpoint maps_are_fenced (in_flight : bool) (evs : list event) : bool :=
  match evs with
  | [] => true
  | Ev_ExecuteCommandLists _ :: rest => maps_are_fenced true rest
  | Ev_Map _ :: rest => negb in_flight && maps_are_fenced in_flight rest
  | e :: rest => maps_are_fenced (in_flight && negb (synchronises e)) rest
  end.

(** ** The sub-steps of initialisation *)

(** The order in which initialize_direct_storage assigns the globals. *)
Definition creation_order : list global_name :=
  [g_storageFactory; g_device; g_commandQueue; g_commandAllocator;
   g_commandList; g_storageQueue].

Definition rank (n : global_name) : nat :=
  match n with
  | g_storageFactory => 0
  | g_device => 1
  | g_commandQueue => 2
  | g_commandAllocator => 3
  | g_commandList => 4
  | g_storageQueue => 5
  end.

Definition hr_create (w : world) (n : global_name) : HRESULT :=
  match n with
  | g_storageFactory => hr_DStorageGetFactory w
  | g_device => hr_D3D12CreateDevice w
  | g_commandQueue => hr_CreateCommandQueue w
  | g_commandAllocator => hr_CreateCommandAllocator w
  | g_commandList => hr_CreateCommandList w
  | g_storageQueue => hr_CreateQueue w
  end.

(** The [what()] of the runtime_error thrown when the sub-step fails. *)
Definition init_message (n : global_name) : string :=
  match n with
  | g_storageFactory => "Failed to initialize DirectStorage factory."
  | g_device => "Failed to create D3D12 device."
  | g_commandQueue => "Failed to create D3D12 command queue."
  | g_commandAllocator => "Failed to create D3D12 command allocator."
  | g_commandList => "Failed to create D3D12 command list."
  | g_storageQueue => "Failed to create DirectStorage queue."
  end.

Definition first_failure (w : world) : option global_name :=
  List.find (fun n => FAILED (hr_create w n)) creation_order.

(** The order in which XWF_Exit resets the globals. *)
Definition release_order : list global_name :=
  [g_storageQueue; g_storageFactory; g_commandList; g_commandAllocator;
   g_commandQueue; g_device].

(** ** The shape of a successful ingestion *)

(** The trace of an ingestion all of whose calls succeed, [K] being the
    size [GetFileInformation] wrote. *)
Definition success_trace (w : world) (file_path : string) (K : N)
    (submitted : list gpu_command) : list event :=
  [Ev_OpenFile (c_str file_path) (hr_OpenFile w (c_str file_path));
   Ev_GetFileInformation (c_str file_path)
     (hr_GetFileInformation w (c_str file_path));
   Ev_CreateCommittedResource D3D12_HEAP_TYPE_DEFAULT K
     (hr_CreateCommittedResource w file_path D3D12_HEAP_TYPE_DEFAULT K);
   Ev_EnqueueReadFile (c_str file_path) 0 K;
   Ev_Submit;
   Ev_WaitForIdle;
   Ev_CreateCommittedResource D3D12_HEAP_TYPE_READBACK K
     (hr_CreateCommittedResource w file_path D3D12_HEAP_TYPE_READBACK K);
   Ev_ResourceBarrier;
   Ev_CopyResource;
   Ev_ExecuteCommandLists submitted;
   Ev_Signal None 0;
   Ev_Map (hr_Map w file_path);
   Ev_Unmap].

(** What the command list holds once the ingestion of [file_path] has
    recorded its barrier and its copy. *)
Definition recorded_after (file_path : string) (recorded : list gpu_command) :
    list gpu_command :=
  (recorded ++
     [Cmd_ResourceBarrier file_path D3D12_RESOURCE_STATE_COPY_DEST
        D3D12_RESOURCE_STATE_COPY_SOURCE]) ++ [Cmd_CopyResource file_path].

(** ** Concrete worlds and states used to exercise the model *)

Module Examples.

(** "foo" *)
Definition foo : list byte := [x66; x6f; x6f].

(** The sizes of the files on the example disk. *)
Definition size_on_disk (name : string) : N :=
  if String.eqb name "file1.txt" then 3%N else 0%N.

(** A disk holding a three-byte file1.txt and an empty file3.txt;
    file2.txt does not exist.  The parameters pick the answers of the
    device creation, of the command-queue creation, of the buffer allocator
    (for non-zero sizes), of the GPU scheduler and of the RMM lookup. *)
Definition a_world (hr_device hr_queue hr_alloc : HRESULT) (retired : bool)
    (rmm : option string) : world :=
  {| hr_DStorageGetFactory := S_OK;
     hr_D3D12CreateDevice := hr_device;
     hr_CreateCommandQueue := hr_queue;
     hr_CreateCommandAllocator := S_OK;
     hr_CreateCommandList := S_OK;
     hr_CreateQueue := S_OK;
     disk := <["file1.txt" := foo]> (<["file3.txt" := []]> ∅);
     hr_OpenFile := fun _ => S_OK;
     hr_GetFileInformation := fun _ => S_OK;
     file_size := size_on_disk;
     vector_failure := fun _ => None;
     hr_CreateCommittedResource := fun _ _ _ => hr_alloc;
     hr_Map := fun _ => S_OK;
     copy_retired := fun _ _ => retired;
     unretired_view := fun _ _ => [];
     uninitialised_memory := [];
     rmm_failure := rmm;
     cudf_contains := fun _ _ => inr [true] |}.

Definition healthy : world := a_world S_OK S_OK S_OK true None.
Definition out_of_memory : world := a_world S_OK S_OK E_OUTOFMEMORY true None.
Definition racing : world := a_world S_OK S_OK S_OK false None.
Definition no_device : world := a_world E_FAIL S_OK S_OK true None.
Definition no_queue : world := a_world S_OK E_FAIL S_OK true None.
Definition no_resource : world :=
  a_world S_OK S_OK S_OK true (Some "cudaErrorNoDevice no CUDA-capable device is detected").

(** The same machine with nothing on the disk. *)
Definition empty_disk : world :=
  {| hr_DStorageGetFactory := S_OK;
     hr_D3D12CreateDevice := S_OK;
     hr_CreateCommandQueue := S_OK;
     hr_CreateCommandAllocator := S_OK;
     hr_CreateCommandList := S_OK;
     hr_CreateQueue := S_OK;
     disk := ∅;
     hr_OpenFile := fun _ => S_OK;
     hr_GetFileInformation := fun _ => S_OK;
     file_size := fun _ => 0%N;
     vector_failure := fun _ => None;
     hr_CreateCommittedResource := fun _ _ _ => S_OK;
     hr_Map := fun _ => S_OK;
     copy_retired := fun _ _ => true;
     unretired_view := fun _ _ => [];
     uninitialised_memory := [];
     rmm_failure := None;
     cudf_contains := fun _ _ => inr [true] |}.

(** The globals after a successful initialisation. *)
Definition started : globals :=
  mk_globals (Some tt) (Some tt) (Some tt) (Some tt) (Some tt) (Some []).

End Examples.

(** ** DllMain (lines 192-201) *)

Definition DLL_PROCESS_DETACH : Z := 0%Z.
Definition DLL_PROCESS_ATTACH : Z := 1%Z.
Definition DLL_THREAD_ATTACH : Z := 2%Z.
Definition DLL_THREAD_DETACH : Z := 3%Z.

(** Every case of the [switch] only breaks; the function returns [TRUE]. *)
Definition DllMain (ul_reason_for_call : Z) : M Z :=
  (if (ul_reason_for_call =? DLL_PROCESS_ATTACH)%Z then ret tt
   else if (ul_reason_for_call =? DLL_THREAD_ATTACH)%Z then ret tt
   else if (ul_reason_for_call =? DLL_THREAD_DETACH)%Z then ret tt
   else if (ul_reason_for_call =? DLL_PROCESS_DETACH)%Z then ret tt
   else ret tt) ;;;
  ret 1%Z.

(** ** Further observations on a trace *)

(** The event a creation call of initialize_direct_storage logs. *)
Definition creation_event (n : global_name) : HRESULT -> event :=
  match n with
  | g_storageFactory => Ev_DStorageGetFactory
  | g_device => Ev_D3D12CreateDevice
  | g_commandQueue => Ev_CreateCommandQueue
  | g_commandAllocator => Ev_CreateCommandAllocator
  | g_commandList => Ev_CreateCommandList
  | g_storageQueue => Ev_CreateQueue
  end.

Definition is_release (e : event) : bool :=
  match e with Ev_Release _ => true | _ => false end.

(** The trace without the releases. *)
Definition calls (evs : list event) : list event :=
  List.filter (fun e => negb (is_release e)) evs.

(** The globals whose release the trace logs, in order. *)
Definition released_of (e : event) : option global_name :=
  match e with Ev_Release n => Some n | _ => None end.
Definition released (evs : list event) : list global_name := omap released_of evs.

(** The globals for which the trace logs a successful creation, in order. *)
Definition created_of (e : event) : option global_name :=
  match e with
  | Ev_DStorageGetFactory hr => if FAILED hr then None else Some g_storageFactory
  | Ev_D3D12CreateDevice hr => if FAILED hr then None else Some g_device
  | Ev_CreateCommandQueue hr => if FAILED hr then None else Some g_commandQueue
  | Ev_CreateCommandAllocator hr => if FAILED hr then None else Some g_commandAllocator
  | Ev_CreateCommandList hr => if FAILED hr then None else Some g_commandList
  | Ev_CreateQueue hr => if FAILED hr then None else Some g_storageQueue
  | _ => None
  end.
Definition created (evs : list event) : list global_name := omap created_of evs.

Definition global_name_eqb (a b : global_name) : bool := (rank a =? rank b)%nat.

(** How often [n] occurs in a list of globals. *)
Definition occurrences (n : global_name) (l : list global_name) : nat :=
  length (List.filter (global_name_eqb n) l).

(** The sub-steps initialize_direct_storage gets to: all of them, or those
    up to and including the first that fails. *)
Definition attempted (w : world) : list global_name :=
  match first_failure w with
  | None => creation_order
  | Some n => take (S (rank n)) creation_order
  end.

(** The calls one ingestion can make. *)
Definition is_ingestion_event (e : event) : bool :=
  match e with
  | Ev_OpenFile _ _ | Ev_GetFileInformation _ _
  | Ev_CreateCommittedResource _ _ _ | Ev_EnqueueReadFile _ _ _
  | Ev_Submit | Ev_WaitForIdle | Ev_ResourceBarrier | Ev_CopyResource
  | Ev_ExecuteCommandLists _ | Ev_Signal _ _ | Ev_Map _ | Ev_Unmap => true
  | _ => false
  end.

(** Events of the batch driver itself: the resource lookup, the pattern
    stage and the console lines about a file. *)
Definition is_driver_event (e : event) : bool :=
  match e with
  | Ev_get_current_device_resource | Ev_contains _ _
  | Ev_cout _ _ _ | Ev_cerr_file _ _ => true
  | _ => false
  end.

(** Where the DirectStorage read of an ingestion stands. *)
Inductive read_state := Read_idle | Read_enqueued | Read_submitted.

(** A trace in which every enqueued read is submitted and then waited for
    before any command list is submitted to the GPU, before any map, and
    before the trace ends. *)
Fixpoint reads_are_drained (st : read_state) (evs : list event) : bool :=
  match evs with
  | [] => match st with Read_idle => true | _ => false end
  | Ev_EnqueueReadFile _ _ _ :: rest => reads_are_drained Read_enqueued rest
  | Ev_Submit :: rest =>
      reads_are_drained
        (match st with Read_enqueued => Read_submitted | _ => st end) rest
  | Ev_WaitForIdle :: rest =>
      reads_are_drained
        (match st with Read_submitted => Read_idle | _ => st end) rest
  | Ev_ExecuteCommandLists _ :: rest =>
      match st with Read_idle => reads_are_drained st rest | _ => false end
  | Ev_Map _ :: rest =>
      match st with Read_idle => reads_are_drained st rest | _ => false end
  | _ :: rest => reads_are_drained st rest
  end.

(** The buffer and read requests of a trace, in order. *)
Definition is_request (e : event) : bool :=
  match e with
  | Ev_CreateCommittedResource _ _ _ | Ev_EnqueueReadFile _ _ _ => true
  | _ => false
  end.
Definition requests (evs : list event) : list event := List.filter is_request evs.

(** The requests of a whole ingestion of [file_path]: a default-heap
    buffer, one read of the opened file from offset 0, and a readback
    buffer, all three of the size [GetFileInformation] wrote. *)
Definition request_plan (w : world) (file_path : string) : list event :=
  let fileSize := file_size w (c_str file_path) in
  [Ev_CreateCommittedResource D3D12_HEAP_TYPE_DEFAULT fileSize
     (CreateCommittedResource w file_path D3D12_HEAP_TYPE_DEFAULT fileSize).1;
   Ev_EnqueueReadFile (c_str file_path) 0 fileSize;
   Ev_CreateCommittedResource D3D12_HEAP_TYPE_READBACK fileSize
     (CreateCommittedResource w file_path D3D12_HEAP_TYPE_READBACK fileSize).1].

(** What initialize_direct_storage logs for the sub-steps [steps] when
    entered with the globals [g]: for each, the release of the object the
    global holds, if any, and then the creation call. *)
Definition init_trace (w : world) (g : globals) (steps : list global_name) :
    list event :=
  flat_map
    (fun n => (if holds g n then [Ev_Release n] else []) ++
              [creation_event n (hr_create w n)])
    steps.

(** The global [n] holds a freshly created object (for the command list:
    one with nothing recorded). *)
Definition fresh_at (n : global_name) (g : globals) : Prop :=
  match n with
  | g_storageFactory => storageFactory g = Some tt
  | g_storageQueue => storageQueue g = Some tt
  | g_device => device g = Some tt
  | g_commandQueue => commandQueue g = Some tt
  | g_commandAllocator => commandAllocator g = Some tt
  | g_commandList => commandList g = Some []
  end.

(** The global [n] is in [g'] what it is in [g]. *)
Definition same_at (n : global_name) (g g' : globals) : Prop :=
  match n with
  | g_storageFactory => storageFactory g' = storageFactory g
  | g_storageQueue => storageQueue g' = storageQueue g
  | g_device => device g' = device g
  | g_commandQueue => commandQueue g' = commandQueue g
  | g_commandAllocator => commandAllocator g' = commandAllocator g
  | g_commandList => commandList g' = commandList g
  end.

(** [g'] differs from [g] at most in that the command list has recorded
    more. *)
Definition only_appends (g g' : globals) : Prop :=
  storageFactory g' = storageFactory g /\
  storageQueue g' = storageQueue g /\
  device g' = device g /\
  commandQueue g' = commandQueue g /\
  commandAllocator g' = commandAllocator g /\
  exists extra, commandList g' = (fun recorded => recorded ++ extra) <$> commandList g.

(** 1 when the global holds an object, 0 when it is null. *)
Definition held (g : globals) (n : global_name) : nat :=
  if holds g n then 1 else 0.

(** * Proofs *)

(** ** Tactics *)

Ltac unfold_M :=
  unfold create, ComPtr_Reset, record_command, deref, deref_local,
    try_catch, bind, emit, throw, ret, outcome_of, state_of, trace_of in *.

(** An initialised state has its six pointers non-null. *)
Ltac valid_globals g H :=
  destruct g as [[[]|] [[]|] [[]|] [[]|] [[]|] [?|]];
  try discriminate H; clear H.

Ltac split_cases := repeat (case_match; simplify_eq/=).

(** The seven ways through initialize_direct_storage. *)
Ltac init_cases w :=
  unfold attempted, first_failure, initialize_direct_storage; unfold_M;
  cbn [List.find creation_order hr_create];
  destruct (FAILED (hr_DStorageGetFactory w)) eqn:H1; cbn;
  [ | destruct (FAILED (hr_D3D12CreateDevice w)) eqn:H2; cbn;
  [ | destruct (FAILED (hr_CreateCommandQueue w)) eqn:H3; cbn;
  [ | destruct (FAILED (hr_CreateCommandAllocator w)) eqn:H4; cbn;
  [ | destruct (FAILED (hr_CreateCommandList w)) eqn:H5; cbn;
  [ | destruct (FAILED (hr_CreateQueue w)) eqn:H6; cbn ]]]]].

(** Pushes the observations through a trace built by [::] and [++]. *)
Ltac observe :=
  unfold reports, opened, patterns in *;
  repeat (rewrite ?omap_app; cbn).

(** ** Initialisation *)

Section Initialisation.

Variable w : world.

Lemma first_failure_cases :
  match first_failure w with
  | None => forall n, FAILED (hr_create w n) = false
  | Some n =>
      FAILED (hr_create w n) = true /\
      forall m, rank m < rank n -> FAILED (hr_create w m) = false
  end.
Proof.
  unfold first_failure; cbn [List.find creation_order].
  destruct (FAILED (hr_create w g_storageFactory)) eqn:H1;
    [ split; [done | intros []; cbn; lia] | ].
  destruct (FAILED (hr_create w g_device)) eqn:H2;
    [ split; [done | intros []; cbn; first [lia | done]] | ].
  destruct (FAILED (hr_create w g_commandQueue)) eqn:H3;
    [ split; [done | intros []; cbn; first [lia | done]] | ].
  destruct (FAILED (hr_create w g_commandAllocator)) eqn:H4;
    [ split; [done | intros []; cbn; first [lia | done]] | ].
  destruct (FAILED (hr_create w g_commandList)) eqn:H5;
    [ split; [done | intros []; cbn; first [lia | done]] | ].
  destruct (FAILED (hr_create w g_storageQueue)) eqn:H6;
    [ split; [done | intros []; cbn; first [lia | done]] | ].
  intros []; done.
Qed.

(** What the initialisation returns, and that it talks neither to files
    nor to the console. *)
Lemma initialize_outcome g :
  exists g' evs,
    initialize_direct_storage w g =
      (match first_failure w with
       | None => Returned tt
       | Some n => Threw (init_message n)
       end, g', evs) /\
    (first_failure w = None -> all_valid g' = true) /\
    opened evs = [] /\ reports evs = [] /\ patterns evs = [].
Proof.
  unfold first_failure, initialize_direct_storage; unfold_M.
  cbn [List.find creation_order hr_create].
  destruct (FAILED (hr_DStorageGetFactory w)) eqn:H1; cbn;
    [ do 2 eexists; split; [reflexivity|]; split; [done|];
      destruct g as [[] [] [] [] [] []]; done | ].
  destruct (FAILED (hr_D3D12CreateDevice w)) eqn:H2; cbn;
    [ do 2 eexists; split; [reflexivity|]; split; [done|];
      destruct g as [[] [] [] [] [] []]; done | ].
  destruct (FAILED (hr_CreateCommandQueue w)) eqn:H3; cbn;
    [ do 2 eexists; split; [reflexivity|]; split; [done|];
      destruct g as [[] [] [] [] [] []]; done | ].
  destruct (FAILED (hr_CreateCommandAllocator w)) eqn:H4; cbn;
    [ do 2 eexists; split; [reflexivity|]; split; [done|];
      destruct g as [[] [] [] [] [] []]; done | ].
  destruct (FAILED (hr_CreateCommandList w)) eqn:H5; cbn;
    [ do 2 eexists; split; [reflexivity|]; split; [done|];
      destruct g as [[] [] [] [] [] []]; done | ].
  destruct (FAILED (hr_CreateQueue w)) eqn:H6; cbn;
    do 2 eexists; (split; [reflexivity|]); (split; [done|]);
      destruct g as [[] [] [] [] [] []]; done.
Qed.

End Initialisation.

(** C6 (as amended).  initialize_direct_storage makes its creation calls in
    [creation_order] and stops at the first one whose HRESULT is a failure:
    it throws the runtime_error of that sub-step and makes no later creation
    call.  Nothing is rolled back: afterwards the global of the failing
    sub-step is null, the globals of the sub-steps before it hold their
    fresh objects, and the globals of the sub-steps after it are exactly
    what they were before the call.  When no sub-step fails the call returns
    with six fresh objects. *)
Theorem initialize_stops_at_first_failure (w : world) (g : globals) :
  let run := initialize_direct_storage w g in
  calls (trace_of run) =
    map (fun n => creation_event n (hr_create w n)) (attempted w) /\
  match first_failure w with
  | None => outcome_of run = Returned tt /\ forall m, fresh_at m (state_of run)
  | Some n =>
      outcome_of run = Threw (init_message n) /\
      holds (state_of run) n = false /\
      (forall m, rank m < rank n -> fresh_at m (state_of run)) /\
      (forall m, rank n < rank m -> same_at m g (state_of run))
  end.
Proof.
  init_cases w; destruct g as [[] [] [] [] [] []];
    repeat split; try (intros []; cbn; first [lia | reflexivity]).
Qed.

(** C6 (as stated) fails: when the factory and the device are obtained and
    the command-queue creation then fails, initialize_direct_storage throws
    and leaves the device valid next to a null command queue, a null
    command allocator and a null command list: of the Device Context's
    handles neither all are valid nor none. *)
Lemma initialize_leaves_partial_state :
  initialize_direct_storage Examples.no_queue never_initialised =
    (Threw "Failed to create D3D12 command queue.",
     mk_globals (Some tt) None (Some tt) None None None,
     [Ev_DStorageGetFactory S_OK; Ev_D3D12CreateDevice S_OK;
      Ev_CreateCommandQueue E_FAIL]) /\
  map (holds (mk_globals (Some tt) None (Some tt) None None None))
      [g_device; g_commandQueue; g_commandAllocator; g_commandList] =
    [true; false; false; false] /\
  all_valid (mk_globals (Some tt) None (Some tt) None None None) = false /\
  none_valid (mk_globals (Some tt) None (Some tt) None None None) = false.
Proof. repeat split. Qed.

(** ** Shutdown *)

(** C7.  XWF_Exit returns 0 from any state and leaves all six globals null;
    it releases exactly the objects that were held, in [release_order]
    (storage queue, factory, command list, allocator, command queue, and the
    device last).  Called when nothing is held (already shut down, or never
    initialised) it releases nothing and leaves the same state, so a second
    call changes nothing. *)
Theorem XWF_Exit_idempotent (g : globals) :
  XWF_Exit g =
    (Returned 0%Z, never_initialised,
     map Ev_Release (List.filter (holds g) release_order)) /\
  XWF_Exit never_initialised = (Returned 0%Z, never_initialised, []) /\
  XWF_Exit (state_of (XWF_Exit g)) = (Returned 0%Z, state_of (XWF_Exit g), []) /\
  last release_order = Some g_device.
Proof.
  assert (XWF_Exit g =
    (Returned 0%Z, never_initialised,
     map Ev_Release (List.filter (holds g) release_order))) as E
    by (destruct g as [[] [] [] [] [] []]; reflexivity).
  rewrite E; repeat split.
Qed.

(** ** Ingestion of one file *)

Section Ingestion.

Variable w : world.

Lemma memcpy_whole (dst src : list byte) (n : nat) :
  length dst = n -> length src = n -> memcpy dst src (N.of_nat n) = src.
Proof.
  intros Hd Hs; unfold memcpy; rewrite Nnat.Nat2N.id.
  rewrite take_ge, drop_ge by lia. apply app_nil_r.
Qed.

Lemma memcpy_all (dst src : list byte) (n : N) :
  length dst = N.to_nat n -> length src = N.to_nat n -> memcpy dst src n = src.
Proof.
  intros Hd Hs. rewrite <- (N2Nat.id n). apply memcpy_whole; assumption.
Qed.

Lemma length_read_region (dst file : list byte) (n : N) :
  length dst = N.to_nat n -> length (read_region dst file n) = N.to_nat n.
Proof.
  intros Hd. unfold read_region.
  rewrite length_app, length_take, length_drop. lia.
Qed.

Lemma read_region_whole (dst file : list byte) :
  length dst = length file -> read_region dst file (N.of_nat (length file)) = file.
Proof.
  intros Hd. unfold read_region. rewrite Nnat.Nat2N.id, Nat.min_id.
  rewrite take_ge, drop_ge by lia. apply app_nil_r.
Qed.

(** In an initialised state an ingestion never crashes, keeps the state
    initialised, and its first call is the [OpenFile] of its path as a C
    string; it opens nothing else and prints nothing. *)
Lemma read_valid (file_path : string) (g : globals) :
  all_valid g = true ->
  exists o g' hr rest,
    read_file_direct_storage w file_path g =
      (o, g', Ev_OpenFile (c_str file_path) hr :: rest) /\
    all_valid g' = true /\
    ((exists b, o = Returned b) \/ (exists what, o = Threw what)) /\
    reports rest = [] /\ opened rest = [] /\ patterns rest = [].
Proof.
  intros H; valid_globals g H.
  unfold read_file_direct_storage, OpenFile, CreateCommittedResource; unfold_M.
  cbn. split_cases; eauto 12.
Qed.

(** A path that names no file on the disk: the open fails, the ingestion
    throws before any other call, and the globals are untouched. *)
Lemma read_missing (file_path : string) (g : globals) :
  is_null (storageFactory g) = false ->
  disk w !! c_str file_path = None ->
  read_file_direct_storage w file_path g =
    (Threw ("Failed to open file with DirectStorage: " +:+ file_path), g,
     [Ev_OpenFile (c_str file_path) E_FILE_NOT_FOUND]).
Proof.
  intros Hf Hd. unfold read_file_direct_storage, OpenFile; unfold_M.
  rewrite Hd. destruct (storageFactory g); [reflexivity | discriminate].
Qed.

(** Whenever an ingestion returns, its trace is [success_trace]. *)
Lemma read_returns_trace (file_path : string) (g g' : globals)
    (bytes : list byte) (evs : list event) :
  read_file_direct_storage w file_path g = (Returned bytes, g', evs) ->
  exists contents recorded,
    disk w !! c_str file_path = Some contents /\
    commandList g = Some recorded /\
    evs = success_trace w file_path (file_size w (c_str file_path))
            (recorded_after file_path recorded).
Proof.
  destruct g as [sf sq dv cq ca cl].
  unfold read_file_direct_storage, OpenFile, CreateCommittedResource; unfold_M.
  cbn. intros H. split_cases. eauto.
Qed.

End Ingestion.

(** The ingestion of a file all of whose calls succeed, in full. *)
Lemma read_success (w : world) (file_path : string) (g : globals)
    (contents : list byte) (recorded : list gpu_command) :
  all_valid g = true ->
  commandList g = Some recorded ->
  disk w !! c_str file_path = Some contents ->
  FAILED (hr_OpenFile w (c_str file_path)) = false ->
  FAILED (hr_GetFileInformation w (c_str file_path)) = false ->
  vector_failure w (file_size w (c_str file_path)) = None ->
  FAILED (CreateCommittedResource w file_path D3D12_HEAP_TYPE_DEFAULT
            (file_size w (c_str file_path))).1 = false ->
  FAILED (CreateCommittedResource w file_path D3D12_HEAP_TYPE_READBACK
            (file_size w (c_str file_path))).1 = false ->
  FAILED (hr_Map w file_path) = false ->
  read_file_direct_storage w file_path g =
    (Returned
       (if copy_retired w file_path (recorded_after file_path recorded)
        then read_region
               (resize (N.to_nat (file_size w (c_str file_path))) x00
                  (uninitialised_memory w))
               contents (file_size w (c_str file_path))
        else resize (N.to_nat (file_size w (c_str file_path))) x00
               (unretired_view w file_path (recorded_after file_path recorded))),
     set_commandList (Some (recorded_after file_path recorded)) g,
     success_trace w file_path (file_size w (c_str file_path))
       (recorded_after file_path recorded)).
Proof.
  intros Hg Hcl Hdisk Hopen Hinfo Hvec Hdef Hrb Hmap.
  valid_globals g Hg. cbn in Hcl; simplify_eq.
  unfold read_file_direct_storage, OpenFile, CreateCommittedResource in *.
  unfold_M. rewrite Hdisk. cbn in Hdef, Hrb |- *.
  rewrite Hopen, Hinfo. cbn. rewrite Hvec.
  destruct (file_size w (c_str file_path) =? 0)%N eqn:HK; [discriminate Hdef|].
  cbn. rewrite Hdef, Hrb. cbn. rewrite Hmap. cbn.
  unfold success_trace, recorded_after.
  destruct (copy_retired w file_path _);
    rewrite memcpy_all;
    reflexivity || apply length_replicate || apply length_resize ||
    (apply length_read_region, length_resize).
Qed.

(** C1 (what the code does).  In an initialised state, for a file that is
    on the disk, whose size is reported as the K bytes it holds, and for
    which the open, the size query, the vector allocation, both buffer
    allocations and the map succeed, read_file_direct_storage returns
    exactly K bytes after the calls of [success_trace].  They are the file's
    bytes only if the GPU has retired the submitted copy when the readback
    buffer is mapped; otherwise they are whatever the mapping shows, since
    nothing waits for the copy. *)
Theorem read_file_direct_storage_returns_mapped_bytes (w : world) (g : globals)
    (file_path : string) (contents : list byte) :
  all_valid g = true ->
  disk w !! c_str file_path = Some contents ->
  file_size w (c_str file_path) = N.of_nat (length contents) ->
  FAILED (hr_OpenFile w (c_str file_path)) = false ->
  FAILED (hr_GetFileInformation w (c_str file_path)) = false ->
  vector_failure w (N.of_nat (length contents)) = None ->
  FAILED (CreateCommittedResource w file_path D3D12_HEAP_TYPE_DEFAULT
            (N.of_nat (length contents))).1 = false ->
  FAILED (CreateCommittedResource w file_path D3D12_HEAP_TYPE_READBACK
            (N.of_nat (length contents))).1 = false ->
  FAILED (hr_Map w file_path) = false ->
  exists bytes g' submitted,
    read_file_direct_storage w file_path g =
      (Returned bytes, g',
       success_trace w file_path (N.of_nat (length contents)) submitted) /\
    length bytes = length contents /\
    bytes = (if copy_retired w file_path submitted then contents
             else resize (length contents) x00
                    (unretired_view w file_path submitted)).
Proof.
  intros Hg Hdisk Hsize Hopen Hinfo Hvec Hdef Hrb Hmap.
  assert (exists recorded, commandList g = Some recorded) as [recorded Hcl]
    by (destruct g as [sf sq dv cq ca [recorded|]];
        [eauto | destruct sf, sq, dv, cq, ca; discriminate Hg]).
  rewrite <- Hsize in Hvec, Hdef, Hrb.
  pose proof (read_success w file_path g contents recorded
                Hg Hcl Hdisk Hopen Hinfo Hvec Hdef Hrb Hmap) as E.
  rewrite Hsize, Nnat.Nat2N.id in E.
  rewrite read_region_whole in E by apply length_resize.
  eexists _, _, _; split; [exact E|].
  split; [| reflexivity].
  destruct (copy_retired _ _ _); [reflexivity | apply length_resize].
Qed.

(** file1.txt holds "foo"; when the GPU has not retired the copy, the three
    bytes returned are the three zeros the mapping shows. *)
Lemma read_file_direct_storage_returns_mapped_bytes_witness :
  exists bytes g' submitted,
    read_file_direct_storage Examples.racing "file1.txt" Examples.started =
      (Returned bytes, g',
       success_trace Examples.racing "file1.txt" 3 submitted) /\
    length bytes = 3 /\
    bytes = (if copy_retired Examples.racing "file1.txt" submitted
             then Examples.foo
             else resize 3 x00 (unretired_view Examples.racing "file1.txt" submitted)).
Proof.
  apply (read_file_direct_storage_returns_mapped_bytes Examples.racing
           Examples.started "file1.txt" Examples.foo); reflexivity.
Defined.

(** The same ingestion, evaluated: every call succeeds and the result is
    three zero bytes. *)
Example read_file_direct_storage_race :
  disk Examples.racing !! "file1.txt" = Some [x66; x6f; x6f] /\
  read_file_direct_storage Examples.racing "file1.txt" Examples.started =
    (Returned [x00; x00; x00],
     set_commandList (Some (recorded_after "file1.txt" [])) Examples.started,
     success_trace Examples.racing "file1.txt" 3 (recorded_after "file1.txt" [])).
Proof. split; reflexivity. Qed.

(** C2 (what the code does).  Whenever read_file_direct_storage returns, its
    trace ends with the submission of the command list, a [Signal] on a null
    fence with value 0, the [Map] and the [Unmap]: nothing that waits for
    the GPU stands between the submission and the map, so the trace is not
    fenced. *)
Theorem map_follows_submit_without_wait (w : world) (g g' : globals)
    (file_path : string) (bytes : list byte) (evs : list event) :
  read_file_direct_storage w file_path g = (Returned bytes, g', evs) ->
  exists before submitted hr,
    evs = before ++ [Ev_ExecuteCommandLists submitted; Ev_Signal None 0;
                     Ev_Map hr; Ev_Unmap] /\
    existsb synchronises [Ev_Signal None 0] = false /\
    maps_are_fenced false evs = false.
Proof.
  intros H. apply read_returns_trace in H as (contents & recorded & _ & _ & ->).
  exists (take 9 (success_trace w file_path (file_size w (c_str file_path))
                     (recorded_after file_path recorded))),
    (recorded_after file_path recorded), (hr_Map w file_path).
  repeat split.
Qed.

(** The unfenced map in the ingestion of file1.txt. *)
Lemma map_follows_submit_without_wait_witness :
  exists before submitted hr,
    success_trace Examples.healthy "file1.txt" 3
        (recorded_after "file1.txt" []) =
      before ++ [Ev_ExecuteCommandLists submitted; Ev_Signal None 0;
                 Ev_Map hr; Ev_Unmap] /\
    existsb synchronises [Ev_Signal None 0] = false /\
    maps_are_fenced false
      (success_trace Examples.healthy "file1.txt" 3
         (recorded_after "file1.txt" [])) = false.
Proof.
  apply (map_follows_submit_without_wait Examples.healthy Examples.started
           (set_commandList (Some (recorded_after "file1.txt" [])) Examples.started)
           "file1.txt" Examples.foo).
  reflexivity.
Defined.

(** C5 (what the code does).  For a file whose size is reported as 0 (it
    opens, the size query succeeds and the empty vector is allocated),
    read_file_direct_storage passes Width = 0 to CreateCommittedResource
    (there is no special case), the allocation is refused, and the function
    throws instead of returning an empty sequence. *)
Theorem empty_file_reaches_allocator (w : world) (g : globals)
    (file_path : string) (contents : list byte) :
  all_valid g = true ->
  disk w !! c_str file_path = Some contents ->
  FAILED (hr_OpenFile w (c_str file_path)) = false ->
  FAILED (hr_GetFileInformation w (c_str file_path)) = false ->
  file_size w (c_str file_path) = 0%N ->
  vector_failure w 0 = None ->
  read_file_direct_storage w file_path g =
    (Threw ("Failed to create GPU buffer for file: " +:+ file_path), g,
     [Ev_OpenFile (c_str file_path) (hr_OpenFile w (c_str file_path));
      Ev_GetFileInformation (c_str file_path)
        (hr_GetFileInformation w (c_str file_path));
      Ev_CreateCommittedResource D3D12_HEAP_TYPE_DEFAULT 0 E_INVALIDARG]).
Proof.
  intros Hg Hdisk Hopen Hinfo Hsize Hvec. valid_globals g Hg.
  unfold read_file_direct_storage, OpenFile, CreateCommittedResource.
  unfold_M. rewrite Hdisk. cbn. rewrite Hopen, Hinfo. cbn.
  rewrite Hsize, Hvec. reflexivity.
Qed.

(** The empty file3.txt is refused by the allocator. *)
Lemma empty_file_reaches_allocator_witness :
  read_file_direct_storage Examples.healthy "file3.txt" Examples.started =
    (Threw "Failed to create GPU buffer for file: file3.txt", Examples.started,
     [Ev_OpenFile "file3.txt" S_OK; Ev_GetFileInformation "file3.txt" S_OK;
      Ev_CreateCommittedResource D3D12_HEAP_TYPE_DEFAULT 0 E_INVALIDARG]).
Proof.
  apply (empty_file_reaches_allocator Examples.healthy Examples.started
           "file3.txt" []); reflexivity.
Defined.

(** ** The batch driver *)

Section Batch.

Variable w : world.
Variable regex_pattern : string.

Lemma reports_app (a b : list event) : reports (a ++ b) = reports a ++ reports b.
Proof. apply omap_app. Qed.

Lemma opened_app (a b : list event) : opened (a ++ b) = opened a ++ opened b.
Proof. apply omap_app. Qed.

Lemma patterns_app (a b : list event) : patterns (a ++ b) = patterns a ++ patterns b.
Proof. apply omap_app. Qed.

(** One iteration of the loop in an initialised state: it returns, keeps
    the state initialised, opens its path once and prints one line about
    it. *)
Lemma process_file_valid (file_path : string) (g : globals) :
  all_valid g = true ->
  exists g' evs r,
    process_file w regex_pattern file_path g = (Returned tt, g', evs) /\
    all_valid g' = true /\
    reports evs = [r] /\ report_path r = file_path /\
    opened evs = [c_str file_path] /\
    Forall (eq regex_pattern) (patterns evs).
Proof.
  intros Hg.
  destruct (read_valid w file_path g Hg)
    as (o & g' & hr & rest & E & Hg' & Ho & Hr & Hop & Hpat).
  unfold process_file, try_catch, bind. rewrite E.
  destruct Ho as [[b ->] | [what ->]].
  - cbn. destruct (cudf_contains w b regex_pattern) as [what | result]; cbn;
      eexists _, _, _; (split; [reflexivity|]); (split; [assumption|]);
      observe; rewrite Hr, Hop, Hpat; cbn; repeat split; repeat constructor.
  - cbn. eexists _, _, _; (split; [reflexivity|]); (split; [assumption|]).
    observe; rewrite Hr, Hop, Hpat; cbn; repeat split; repeat constructor.
Qed.

(** An iteration never lets an exception out: the handler only prints. *)
Lemma process_file_never_throws (file_path : string) (g : globals) :
  outcome_of (process_file w regex_pattern file_path g) = Returned tt \/
  outcome_of (process_file w regex_pattern file_path g) = Crashed.
Proof.
  unfold process_file, try_catch, bind, outcome_of.
  destruct (read_file_direct_storage w file_path g) as [[[b | what |] g1] e1];
    cbn; [ | auto | auto ].
  destruct (cudf_contains w b regex_pattern); cbn; auto.
Qed.

Lemma for_each_file_never_throws (file_paths : list string) (g : globals) :
  outcome_of (for_each_file w regex_pattern file_paths g) = Returned tt \/
  outcome_of (for_each_file w regex_pattern file_paths g) = Crashed.
Proof.
  revert g; induction file_paths as [| file_path rest IH]; intros g; [left; reflexivity|].
  cbn [for_each_file]. unfold bind.
  pose proof (process_file_never_throws file_path g) as Hp.
  destruct (process_file w regex_pattern file_path g) as [[[[] | what |] g1] e1];
    unfold outcome_of in *; cbn in *;
    [ | destruct Hp; discriminate | auto ].
  specialize (IH g1).
  destruct (for_each_file w regex_pattern rest g1) as [[o g2] e2]; exact IH.
Qed.

(** The whole loop in an initialised state. *)
Lemma for_each_file_valid (file_paths : list string) (g : globals) :
  all_valid g = true ->
  exists g' evs,
    for_each_file w regex_pattern file_paths g = (Returned tt, g', evs) /\
    all_valid g' = true /\
    map report_path (reports evs) = file_paths /\
    opened evs = map c_str file_paths /\
    Forall (eq regex_pattern) (patterns evs).
Proof.
  revert g; induction file_paths as [| file_path rest IH]; intros g Hg.
  - exists g, []; repeat split; [assumption | constructor].
  - destruct (process_file_valid file_path g Hg)
      as (g1 & e1 & r & E1 & Hg1 & Hr1 & Hp1 & Ho1 & Hpat1).
    destruct (IH g1 Hg1) as (g2 & e2 & E2 & Hg2 & Hr2 & Ho2 & Hpat2).
    exists g2, (e1 ++ e2). cbn [for_each_file]. unfold bind. rewrite E1, E2.
    split; [reflexivity|]. split; [assumption|].
    rewrite reports_app, opened_app, patterns_app, Hr1, Ho1, Ho2.
    cbn. rewrite Hr2, Hp1. repeat split. apply Forall_app; auto.
Qed.

(** A path naming no file on the disk adds its error line between the lines
    of the paths before and after it, and changes neither those lines nor
    the final state. *)
Lemma for_each_file_missing (before after : list string) (missing : string)
    (g : globals) :
  all_valid g = true ->
  disk w !! c_str missing = None ->
  exists g' evs evs' r_before r_after,
    for_each_file w regex_pattern (before ++ after) g = (Returned tt, g', evs) /\
    for_each_file w regex_pattern (before ++ missing :: after) g =
      (Returned tt, g', evs') /\
    reports evs = r_before ++ r_after /\
    reports evs' =
      r_before ++
      Report_error missing ("Failed to open file with DirectStorage: " +:+ missing)
      :: r_after /\
    map report_path r_before = before /\
    map report_path r_after = after.
Proof.
  intros Hg Hmiss. revert g Hg.
  induction before as [| file_path rest IH]; intros g Hg.
  - destruct (for_each_file_valid after g Hg) as (g' & evs & E & _ & Hr & _).
    assert (is_null (storageFactory g) = false) as Hf
      by (destruct g as [[] ? ? ? ? ?]; [reflexivity | discriminate Hg]).
    eexists g', evs, _, [], (reports evs). cbn [app for_each_file].
    unfold bind at 1; unfold process_file, try_catch, bind at 1.
    rewrite (read_missing w missing g Hf Hmiss). cbn. rewrite E.
    repeat split; assumption.
  - destruct (process_file_valid file_path g Hg)
      as (g1 & e1 & r & E1 & Hg1 & Hr1 & Hp1 & _).
    destruct (IH g1 Hg1) as (g' & evs & evs' & rb & ra & E & E' & Hr & Hr' & Hb & Ha).
    exists g', (e1 ++ evs), (e1 ++ evs'), (r :: rb), ra.
    cbn [app for_each_file]. unfold bind. rewrite E1, E, E'.
    rewrite !reports_app, Hr1, Hr, Hr'. cbn. rewrite Hp1, Hb.
    repeat split; assumption.
Qed.

End Batch.

(** C3 (as amended).  Started in an initialised state, and provided the
    device memory resource lookup of line 142 does not throw,
    search_files_with_regex returns normally for every list of paths and
    every pattern, whatever happens to the individual files, and prints
    exactly one line per path, in the order of the list. *)
Theorem search_one_report_per_path (w : world) (g : globals)
    (file_paths : list string) (regex_pattern : string) :
  all_valid g = true ->
  rmm_failure w = None ->
  exists g' evs,
    search_files_with_regex w file_paths regex_pattern g = (Returned tt, g', evs) /\
    length (reports evs) = length file_paths /\
    map report_path (reports evs) = file_paths.
Proof.
  intros Hg Hmr.
  destruct (for_each_file_valid w regex_pattern file_paths g Hg)
    as (g' & evs & E & _ & Hr & _).
  exists g', (Ev_get_current_device_resource :: evs).
  unfold search_files_with_regex, get_current_device_resource, bind, emit, ret.
  rewrite Hmr, E. split; [reflexivity|].
  change (reports (Ev_get_current_device_resource :: evs)) with (reports evs).
  split; [| assumption].
  rewrite <- (length_map report_path (reports evs)), Hr; reflexivity.
Qed.

(** Three paths of which one ingests, one is missing and one is refused by
    the allocator: three lines, in order. *)
Lemma search_one_report_per_path_witness :
  exists g' evs,
    search_files_with_regex Examples.healthy run_file_paths "foo"
      Examples.started = (Returned tt, g', evs) /\
    length (reports evs) = 3 /\
    map report_path (reports evs) = ["file1.txt"; "file2.txt"; "file3.txt"].
Proof.
  apply (search_one_report_per_path Examples.healthy Examples.started
           run_file_paths "foo"); reflexivity.
Defined.

(** C3 (as stated) fails: when the device memory resource lookup of line
    142 throws, the exception leaves search_files_with_regex before the loop
    is entered, and no line is printed for any of the three paths. *)
Lemma search_prints_nothing_when_lookup_throws :
  search_files_with_regex Examples.no_resource
      ["file1.txt"; "file2.txt"; "file3.txt"] "foo" Examples.started =
    (Threw "cudaErrorNoDevice no CUDA-capable device is detected",
     Examples.started, [Ev_get_current_device_resource]) /\
  length (reports [Ev_get_current_device_resource]) = 0 /\
  length ["file1.txt"; "file2.txt"; "file3.txt"] = 3.
Proof. repeat split. Qed.

(** C4 (as amended).  In an initialised state, and provided the device
    memory resource lookup of line 142 does not throw, a path that names no
    file on the disk (the name being the path up to its first NUL, as
    OpenFile receives it) gets the error line "Failed to open file with
    DirectStorage: <path>" (an open error, carrying no match), the call
    still returns normally, and the lines of the paths before and after it
    are exactly the lines printed when the missing path is left out of the
    list. *)
Theorem missing_path_isolated (w : world) (g : globals)
    (before after : list string) (missing regex_pattern : string) :
  all_valid g = true ->
  rmm_failure w = None ->
  disk w !! c_str missing = None ->
  let failure :=
    Report_error missing ("Failed to open file with DirectStorage: " +:+ missing) in
  exists g' evs evs' r_before r_after,
    search_files_with_regex w (before ++ after) regex_pattern g =
      (Returned tt, g', evs) /\
    search_files_with_regex w (before ++ missing :: after) regex_pattern g =
      (Returned tt, g', evs') /\
    reports evs = r_before ++ r_after /\
    reports evs' = r_before ++ failure :: r_after /\
    map report_path r_before = before /\
    map report_path r_after = after /\
    matched failure = false /\
    error failure =
      Some ("Failed to open file with DirectStorage: " +:+ missing).
Proof.
  intros Hg Hmr Hmiss failure.
  destruct (for_each_file_missing w regex_pattern before after missing g Hg Hmiss)
    as (g' & evs & evs' & rb & ra & E & E' & Hr & Hr' & Hb & Ha).
  exists g', (Ev_get_current_device_resource :: evs),
    (Ev_get_current_device_resource :: evs'), rb, ra.
  unfold search_files_with_regex, get_current_device_resource, bind, emit, ret.
  rewrite Hmr, E, E'. repeat split; assumption.
Qed.

(** The missing file2.txt between file1.txt and file3.txt. *)
Lemma missing_path_isolated_witness :
  exists g' evs evs' r_before r_after,
    search_files_with_regex Examples.healthy (["file1.txt"] ++ ["file3.txt"])
      "foo" Examples.started = (Returned tt, g', evs) /\
    search_files_with_regex Examples.healthy
      (["file1.txt"] ++ "file2.txt" :: ["file3.txt"])
      "foo" Examples.started = (Returned tt, g', evs') /\
    reports evs = r_before ++ r_after /\
    reports evs' =
      r_before ++
      Report_error "file2.txt"
        ("Failed to open file with DirectStorage: " +:+ "file2.txt") :: r_after /\
    map report_path r_before = ["file1.txt"] /\
    map report_path r_after = ["file3.txt"] /\
    matched (Report_error "file2.txt"
               ("Failed to open file with DirectStorage: " +:+ "file2.txt")) = false /\
    error (Report_error "file2.txt"
             ("Failed to open file with DirectStorage: " +:+ "file2.txt")) =
      Some ("Failed to open file with DirectStorage: " +:+ "file2.txt").
Proof.
  apply (missing_path_isolated Examples.healthy Examples.started
           ["file1.txt"] ["file3.txt"] "file2.txt" "foo"); reflexivity.
Defined.

(** C4 (as stated) fails: when the device memory resource lookup of line
    142 throws, the missing file2.txt gets no result at all and the
    exception reaches the caller of search_files_with_regex. *)
Lemma missing_path_unreported_when_lookup_throws :
  disk Examples.no_resource !! c_str "file2.txt" = None /\
  search_files_with_regex Examples.no_resource ["file1.txt"; "file2.txt"] "foo"
      Examples.started =
    (Threw "cudaErrorNoDevice no CUDA-capable device is detected",
     Examples.started, [Ev_get_current_device_resource]) /\
  reports (trace_of (search_files_with_regex Examples.no_resource
                       ["file1.txt"; "file2.txt"] "foo" Examples.started)) = [].
Proof. repeat split. Qed.

(** C8 (as amended).  The code has no initialisation check and no
    NotInitializedError.  Called with the globals null (before any
    initialisation, or after XWF_Exit, which always leaves them null),
    search_files_with_regex makes no DirectStorage or Direct3D call and
    prints nothing: after the device-memory-resource lookup (whose exception,
    if any, propagates) it returns at once for an empty list, and for a
    non-empty list it dereferences the null storage factory in the first
    ingestion, which is undefined behaviour and not an exception. *)
Theorem search_before_start (w : world) (file_paths : list string)
    (regex_pattern : string) (g : globals) :
  search_files_with_regex w file_paths regex_pattern never_initialised =
    (match rmm_failure w with
     | Some what => Threw what
     | None => match file_paths with [] => Returned tt | _ :: _ => Crashed end
     end, never_initialised, [Ev_get_current_device_resource]) /\
  state_of (XWF_Exit g) = never_initialised /\
  existsb touches_device [Ev_get_current_device_resource] = false /\
  reports [Ev_get_current_device_resource] = [].
Proof.
  split; [| repeat split; destruct g as [[] [] [] [] [] []]; reflexivity].
  unfold search_files_with_regex, get_current_device_resource, bind, emit, throw, ret.
  destruct (rmm_failure w); [reflexivity|].
  destruct file_paths; reflexivity.
Qed.

(** C8 (as stated) fails: scanning one path before any initialisation
    crashes on the null storage factory; no error is thrown to the caller
    and no error line is printed for the path. *)
Lemma search_before_start_crashes :
  search_files_with_regex Examples.healthy ["file1.txt"] "foo" never_initialised =
    (Crashed, never_initialised, [Ev_get_current_device_resource]) /\
  reports (trace_of (search_files_with_regex Examples.healthy ["file1.txt"] "foo"
                       never_initialised)) = [].
Proof. split; reflexivity. Qed.

(** ** The entry point *)

(** XWF_Run in full: its exit code, and what it opens and prints. *)
Lemma XWF_Run_outcome (w : world) (g : globals) :
  exists g' evs,
    XWF_Run w g =
      (Returned (match first_failure w, rmm_failure w with
                 | None, None => 0%Z
                 | _, _ => 1%Z
                 end), g', evs) /\
    opened evs = (match first_failure w, rmm_failure w with
                  | None, None => run_file_paths
                  | _, _ => []
                  end) /\
    map report_path (reports evs) = opened evs /\
    Forall (eq run_regex_pattern) (patterns evs).
Proof.
  destruct (initialize_outcome w g) as (g1 & e1 & E & Hv & Ho & Hr & Hp).
  unfold XWF_Run, try_catch, bind at 1 2. rewrite E.
  destruct (first_failure w) as [n |].
  - cbn. eexists _, _; split; [reflexivity|].
    observe. rewrite Ho, Hr, Hp. repeat split; constructor.
  - specialize (Hv eq_refl).
    unfold search_files_with_regex, get_current_device_resource, bind, emit,
      throw, ret.
    destruct (rmm_failure w) as [what |].
    + cbn. eexists _, _; split; [reflexivity|].
      observe. rewrite Ho, Hr, Hp. repeat split; constructor.
    + destruct (for_each_file_valid w run_regex_pattern run_file_paths g1 Hv)
        as (g2 & e2 & E2 & _ & Hr2 & Ho2 & Hp2).
      rewrite E2. cbn. eexists _, _; split; [reflexivity|].
      observe. rewrite Ho, Hr, Hp, !app_nil_r, Ho2. cbn.
      repeat split; assumption.
Qed.

(** C9.  Whatever the world and the state of the globals, the only paths
    XWF_Run hands to OpenFile are "file1.txt", "file2.txt", "file3.txt", in
    that order (none at all when initialisation or the resource lookup
    throws); it prints one line for each path it opens, and the only pattern
    it hands to the pattern stage or prints is "your-regex-pattern".  The
    function takes no argument from its caller. *)
Theorem XWF_Run_fixed_inputs (w : world) (g : globals) :
  opened (trace_of (XWF_Run w g)) =
    (match first_failure w, rmm_failure w with
     | None, None => ["file1.txt"; "file2.txt"; "file3.txt"]
     | _, _ => []
     end) /\
  map report_path (reports (trace_of (XWF_Run w g))) =
    opened (trace_of (XWF_Run w g)) /\
  Forall (eq "your-regex-pattern") (patterns (trace_of (XWF_Run w g))).
Proof.
  destruct (XWF_Run_outcome w g) as (g' & evs & -> & Ho & Hr & Hp).
  unfold trace_of; cbn [snd]. repeat split; assumption.
Qed.

(** C10.  XWF_Run returns 1 exactly when an exception escapes the
    initialisation or, after a successful initialisation, escapes
    search_files_with_regex; otherwise it returns 0.  The only exception
    that can escape search_files_with_regex is the one of the device memory
    resource lookup before the loop: once the loop is entered nothing is
    thrown, whatever happens to the files. *)
Theorem XWF_Run_exit_code (w : world) (g : globals) :
  let init := initialize_direct_storage w g in
  let scan := search_files_with_regex w run_file_paths run_regex_pattern
                (state_of init) in
  (outcome_of (XWF_Run w g) = Returned 1%Z <->
     (exists what, outcome_of init = Threw what) \/
     (outcome_of init = Returned tt /\ exists what, outcome_of scan = Threw what)) /\
  (outcome_of (XWF_Run w g) = Returned 0%Z \/
   outcome_of (XWF_Run w g) = Returned 1%Z) /\
  (forall g1 file_paths regex_pattern what,
     outcome_of (search_files_with_regex w file_paths regex_pattern g1) = Threw what ->
     rmm_failure w = Some what) /\
  (forall g1 file_paths regex_pattern,
     outcome_of (for_each_file w regex_pattern file_paths g1) = Returned tt \/
     outcome_of (for_each_file w regex_pattern file_paths g1) = Crashed).
Proof.
  intros init scan.
  assert (forall g1 file_paths regex_pattern what,
     outcome_of (search_files_with_regex w file_paths regex_pattern g1) = Threw what ->
     rmm_failure w = Some what) as Hscan.
  { intros g1 file_paths regex_pattern what.
    pose proof (for_each_file_never_throws w regex_pattern file_paths g1) as Hloop.
    unfold search_files_with_regex, get_current_device_resource, bind, emit,
      throw, ret, outcome_of in *.
    destruct (rmm_failure w) as [what' |]; cbn; [congruence|].
    destruct (for_each_file w regex_pattern file_paths g1) as [[o g2] e2].
    cbn in *. intros ->. destruct Hloop; discriminate. }
  destruct (XWF_Run_outcome w g) as (g' & evs & -> & _).
  destruct (initialize_outcome w g) as (g1 & e1 & E & Hv & _).
  subst init scan. rewrite E. unfold outcome_of, state_of; cbn [fst snd].
  split; [| split; [| split; [exact Hscan | intros; apply for_each_file_never_throws]]].
  - destruct (first_failure w) as [n |].
    + split; [eauto | reflexivity].
    + specialize (Hv eq_refl).
      destruct (rmm_failure w) as [what |] eqn:Hwhat.
      * split; [| reflexivity].
        intros _; right; split; [reflexivity|].
        unfold search_files_with_regex, get_current_device_resource, bind, emit,
          throw, ret. rewrite Hwhat. eauto.
      * split; [discriminate|].
        intros [[what Hw] | [_ [what Hw]]]; [discriminate|].
        apply Hscan in Hw. discriminate.
  - destruct (first_failure w), (rmm_failure w); auto.
Qed.

(** With none of the three files on the disk every ingestion fails, three
    error lines are printed, and XWF_Run still returns 0. *)
Example XWF_Run_all_files_missing :
  outcome_of (XWF_Run Examples.empty_disk never_initialised) = Returned 0%Z /\
  reports (trace_of (XWF_Run Examples.empty_disk never_initialised)) =
    [Report_error "file1.txt" "Failed to open file with DirectStorage: file1.txt";
     Report_error "file2.txt" "Failed to open file with DirectStorage: file2.txt";
     Report_error "file3.txt" "Failed to open file with DirectStorage: file3.txt"].
Proof. split; reflexivity. Qed.

(** On the example disk: file1.txt is matched, file2.txt is missing, and the
    empty file3.txt is refused by the allocator. *)
Example XWF_Run_example_disk :
  outcome_of (XWF_Run Examples.healthy never_initialised) = Returned 0%Z /\
  reports (trace_of (XWF_Run Examples.healthy never_initialised)) =
    [Report_match "file1.txt" "your-regex-pattern" [true];
     Report_error "file2.txt" "Failed to open file with DirectStorage: file2.txt";
     Report_error "file3.txt" "Failed to create GPU buffer for file: file3.txt"].
Proof. split; reflexivity. Qed.

(** * Further properties of the code *)

(** ** Initialisation: the calls it makes *)

(** X1.  The exact trace of initialize_direct_storage.  It goes through
    the sub-steps factory, device, command queue, command allocator, command
    list, storage queue and stops after the first whose creation call
    fails.  For each sub-step it reaches it logs the release of the object
    the global already held, if it held one, immediately followed by the
    creation call; it logs nothing else. *)
Theorem initialize_calls_in_order (w : world) (g : globals) :
  trace_of (initialize_direct_storage w g) = init_trace w g (attempted w).
Proof.
  init_cases w; destruct g as [[] [] [] [] [] []]; reflexivity.
Qed.

(** A successful initialisation ends in the same state whatever the globals
    held before: six fresh objects and an empty command list. *)
Lemma initialize_success_state (w : world) (g : globals) :
  first_failure w = None ->
  outcome_of (initialize_direct_storage w g) = Returned tt /\
  state_of (initialize_direct_storage w g) = Examples.started /\
  trace_of (initialize_direct_storage w g) = init_trace w g creation_order.
Proof.
  init_cases w; try discriminate; intros _;
    destruct g as [[] [] [] [] [] []]; repeat split; reflexivity.
Qed.

(** ** Ingestion: what it leaves alone, and how it fails *)

Ltac read_cases g :=
  destruct g as [sf sq dv cq ca cl];
  unfold read_file_direct_storage, OpenFile, CreateCommittedResource; unfold_M;
  cbn; split_cases.

(** An ingestion logs only ingestion calls. *)
Lemma read_events (w : world) (file_path : string) (g : globals) :
  forallb is_ingestion_event (trace_of (read_file_direct_storage w file_path g)) = true.
Proof. read_cases g; reflexivity. Qed.

(** An ingestion assigns no global; the only thing it changes is what the
    command list has recorded, to which it appends its barrier and copy. *)
Lemma read_frame (w : world) (file_path : string) (g : globals) :
  let g' := state_of (read_file_direct_storage w file_path g) in
  g' = g \/
  exists recorded,
    commandList g = Some recorded /\
    g' = set_commandList (Some (recorded_after file_path recorded)) g.
Proof. read_cases g; eauto. Qed.

(** Within an ingestion the enqueued read is always submitted and waited
    for before anything is submitted to the GPU or mapped, and before the
    ingestion ends. *)
Lemma read_drained (w : world) (file_path : string) (g : globals)
    (rest : list event) :
  reads_are_drained Read_idle
    (trace_of (read_file_direct_storage w file_path g) ++ rest) =
  reads_are_drained Read_idle rest.
Proof. read_cases g; reflexivity. Qed.

(** X2.  The requests of one ingestion.  Whatever the state and the
    outcome, the buffers an ingestion asks for and the reads it enqueues
    are, in this order and with nothing else among them, an initial part of:
    a default-heap buffer, one read of the opened file from offset 0, a
    readback buffer -- all three of the size GetFileInformation wrote.  An
    ingestion that returns has made all three. *)
Theorem ingestion_requests_follow_plan (w : world) (file_path : string)
    (g : globals) :
  match outcome_of (read_file_direct_storage w file_path g) with
  | Returned _ =>
      requests (trace_of (read_file_direct_storage w file_path g)) =
        request_plan w file_path
  | _ =>
      requests (trace_of (read_file_direct_storage w file_path g))
        `prefix_of` request_plan w file_path
  end.
Proof.
  unfold request_plan. read_cases g;
    first [reflexivity | eexists; reflexivity].
Qed.

(** X3.  How an ingestion fails.  When read_file_direct_storage throws, it
    is in one of six ways.  Five are failed calls: the last call made is the
    one whose HRESULT is a failure and the message names that step and ends
    with the path.  The sixth is the vector of line 77: the size query was
    the last call and succeeded, and the exception is the allocation's own.
    In all of them the globals are exactly as before -- except when it is
    the map that fails: by then the barrier and the copy have been recorded
    into the never-reset command list and submitted, and they stay
    recorded. *)
Theorem ingestion_failure_table (w : world) (file_path what : string)
    (g g' : globals) (evs : list event) :
  read_file_direct_storage w file_path g = (Threw what, g', evs) ->
  (what = "Failed to open file with DirectStorage: " +:+ file_path /\ g' = g /\
   exists hr, FAILED hr = true /\ evs = [Ev_OpenFile (c_str file_path) hr]) \/
  (what = "Failed to get file size for: " +:+ file_path /\ g' = g /\
   exists hr, FAILED hr = true /\
     last evs = Some (Ev_GetFileInformation (c_str file_path) hr)) \/
  (vector_failure w (file_size w (c_str file_path)) = Some what /\ g' = g /\
   exists hr, FAILED hr = false /\
     last evs = Some (Ev_GetFileInformation (c_str file_path) hr)) \/
  (what = "Failed to create GPU buffer for file: " +:+ file_path /\ g' = g /\
   exists Width hr, FAILED hr = true /\
     last evs = Some (Ev_CreateCommittedResource D3D12_HEAP_TYPE_DEFAULT Width hr)) \/
  (what = "Failed to create readback buffer for file: " +:+ file_path /\ g' = g /\
   exists Width hr, FAILED hr = true /\
     last evs = Some (Ev_CreateCommittedResource D3D12_HEAP_TYPE_READBACK Width hr)) \/
  (what = "Failed to map readback buffer for file: " +:+ file_path /\
   exists recorded hr,
     commandList g = Some recorded /\
     g' = set_commandList (Some (recorded_after file_path recorded)) g /\
     In (Ev_ExecuteCommandLists (recorded_after file_path recorded)) evs /\
     FAILED hr = true /\ last evs = Some (Ev_Map hr)).
Proof.
  intros H; revert H. read_cases g; intros; simplify_eq.
  all: first
    [ left; split; [reflexivity|]; split; [reflexivity|];
        eexists; split; [|reflexivity]; eassumption
    | right; left; split; [reflexivity|]; split; [reflexivity|];
        eexists; split; [|reflexivity]; eassumption
    | right; right; left; split; [first [eassumption | reflexivity]|];
        split; [reflexivity|]; eexists; split; [|reflexivity]; eassumption
    | right; right; right; left; split; [reflexivity|]; split; [reflexivity|];
        eexists _, _; split; [|reflexivity]; first [eassumption | reflexivity]
    | right; right; right; right; left; split; [reflexivity|]; split; [reflexivity|];
        eexists _, _; split; [|reflexivity]; first [eassumption | reflexivity]
    | right; right; right; right; right; split; [reflexivity|];
        eexists _, _; split; [reflexivity|]; split; [reflexivity|];
        split; [cbn; tauto|]; split; [|reflexivity]; eassumption ].
Qed.

#[local] Arguments memcpy : simpl never.

(** A completed read agrees with the file as far as the file and the
    requested size go. *)
Lemma read_region_agrees (dst file : list byte) (n : N) :
  length dst = N.to_nat n ->
  take (length file) (read_region dst file n) = take (N.to_nat n) file.
Proof.
  intros Hd. unfold read_region.
  destruct (Nat.min_spec (N.to_nat n) (length file)) as [[Hlt ->] | [Hge ->]].
  - rewrite (drop_ge dst) by lia. rewrite app_nil_r.
    apply take_ge. rewrite length_take. lia.
  - rewrite (take_ge file (length file)) by lia. rewrite take_app_length.
    symmetry; apply take_ge; lia.
Qed.

(** X4.  When an ingestion returns.  read_file_direct_storage returns only
    when the path, cut at its first NUL, names a file on the disk, the size
    GetFileInformation wrote is not 0 (the allocator refusing size 0), and
    the open, the size query, the vector allocation, both buffer allocations
    and the map all succeeded.  It returns exactly as many bytes as the size
    written.  If the GPU has retired the submitted commands, they agree with
    the file's contents as far as both go.  The globals are as before except
    that the command list has recorded the barrier and the copy. *)
Theorem ingestion_returns_only_if (w : world) (file_path : string)
    (g g' : globals) (bytes : list byte) (evs : list event) :
  read_file_direct_storage w file_path g = (Returned bytes, g', evs) ->
  exists contents recorded,
    disk w !! c_str file_path = Some contents /\
    file_size w (c_str file_path) <> 0%N /\
    FAILED (hr_OpenFile w (c_str file_path)) = false /\
    FAILED (hr_GetFileInformation w (c_str file_path)) = false /\
    vector_failure w (file_size w (c_str file_path)) = None /\
    FAILED (hr_CreateCommittedResource w file_path D3D12_HEAP_TYPE_DEFAULT
              (file_size w (c_str file_path))) = false /\
    FAILED (hr_CreateCommittedResource w file_path D3D12_HEAP_TYPE_READBACK
              (file_size w (c_str file_path))) = false /\
    FAILED (hr_Map w file_path) = false /\
    length bytes = N.to_nat (file_size w (c_str file_path)) /\
    (copy_retired w file_path (recorded_after file_path recorded) = true ->
     take (length contents) bytes =
       take (N.to_nat (file_size w (c_str file_path))) contents) /\
    commandList g = Some recorded /\
    g' = set_commandList (Some (recorded_after file_path recorded)) g.
Proof.
  intros H; revert H. read_cases g; intros; simplify_eq.
  all: match goal with
       | Hd : (disk _ !! _) = (Some ?c),
         Hz : ((file_size _ _ =? 0)%N) = false,
         Hr : (copy_retired _ _ ((?r ++ _) ++ _)) = _ |- _ =>
           apply N.eqb_neq in Hz; exists c, r; unfold recorded_after;
           rewrite Hr
       end.
  all: rewrite memcpy_all
         by (apply length_replicate || apply length_resize ||
             (apply length_read_region, length_resize)).
  all: repeat split; try assumption; try discriminate;
         try apply length_resize;
         try (apply length_read_region, length_resize).
  intros _. apply read_region_agrees, length_resize.
Qed.

(** The state an ingestion that returns leaves behind. *)
Lemma read_returns_state (w : world) (file_path : string) (g g' : globals)
    (bytes : list byte) (evs : list event) :
  read_file_direct_storage w file_path g = (Returned bytes, g', evs) ->
  exists recorded,
    commandList g = Some recorded /\
    g' = set_commandList (Some (recorded_after file_path recorded)) g.
Proof.
  intros H; revert H. read_cases g; intros; simplify_eq; eauto.
Qed.

(** X5.  The command list is never reset between files.  When two
    ingestions in a row return, the list the second one submits to the GPU
    still begins with everything recorded before and with the barrier and
    the copy of the first file, whose buffers have been released by then. *)
Theorem second_ingestion_resubmits_first (w : world) (first second : string)
    (g g1 g2 : globals) (b1 b2 : list byte) (e1 e2 : list event) :
  read_file_direct_storage w first g = (Returned b1, g1, e1) ->
  read_file_direct_storage w second g1 = (Returned b2, g2, e2) ->
  exists recorded,
    commandList g = Some recorded /\
    In (Ev_ExecuteCommandLists
          (recorded_after second (recorded_after first recorded))) e2 /\
    commandList g2 = Some (recorded_after second (recorded_after first recorded)).
Proof.
  intros H1 H2.
  destruct (read_returns_state w first g g1 b1 e1 H1) as (r & Hr & ->).
  destruct (read_returns_trace w second _ g2 b2 e2 H2) as (c2 & r1 & _ & Hr1 & ->).
  destruct (read_returns_state w second _ g2 b2 _ H2) as (r1' & Hr1' & ->).
  cbn in Hr1, Hr1'. simplify_eq.
  exists r. split; [assumption|]. split; [cbn; tauto | reflexivity].
Qed.

(** ** The batch driver: what a scan leaves alone *)

Lemma quiet_events (evs : list event) :
  forallb (fun e => is_ingestion_event e || is_driver_event e) evs = true ->
  released evs = [] /\ created evs = [] /\ calls evs = evs.
Proof.
  induction evs as [| e evs IH]; [done|].
  cbn [forallb]. intros [He Hevs]%andb_true_iff.
  destruct (IH Hevs) as (Hr & Hc & Hcalls).
  unfold released, created, calls in *.
  destruct e; try discriminate He; cbn; rewrite ?Hr, ?Hc, ?Hcalls; done.
Qed.

Lemma ingestion_events_quiet (evs : list event) :
  forallb is_ingestion_event evs = true ->
  reports evs = [] /\ patterns evs = [] /\
  forallb (fun e => is_ingestion_event e || is_driver_event e) evs = true.
Proof.
  induction evs as [| e evs IH]; [done|].
  cbn [forallb]. intros [He Hevs]%andb_true_iff.
  destruct (IH Hevs) as (Hr & Hp & Hq).
  unfold reports, patterns in *.
  destruct e; try discriminate He; cbn; rewrite ?Hr, ?Hp, ?Hq; done.
Qed.

Lemma only_appends_refl (g : globals) : only_appends g g.
Proof.
  repeat split. exists []. destruct (commandList g); cbn; [rewrite app_nil_r|]; done.
Qed.

Lemma only_appends_trans (g1 g2 g3 : globals) :
  only_appends g1 g2 -> only_appends g2 g3 -> only_appends g1 g3.
Proof.
  intros (A1 & A2 & A3 & A4 & A5 & x & Ax) (B1 & B2 & B3 & B4 & B5 & y & By).
  repeat split; try congruence.
  exists (x ++ y). rewrite By, Ax. destruct (commandList g1); cbn; [rewrite app_assoc|]; done.
Qed.

Lemma read_only_appends (w : world) (file_path : string) (g : globals) :
  only_appends g (state_of (read_file_direct_storage w file_path g)).
Proof.
  destruct (read_frame w file_path g) as [-> | (recorded & Hr & ->)];
    [apply only_appends_refl|].
  repeat split. eexists. rewrite Hr. unfold recorded_after. cbn.
  rewrite <- app_assoc. reflexivity.
Qed.

Section Scan.

Variable w : world.
Variable regex_pattern : string.

(** One iteration: the state is the one the ingestion left, and the trace
    is the ingestion's followed by what the driver logs. *)
Lemma process_file_shape (file_path : string) (g : globals) :
  exists tail,
    state_of (process_file w regex_pattern file_path g) =
      state_of (read_file_direct_storage w file_path g) /\
    trace_of (process_file w regex_pattern file_path g) =
      trace_of (read_file_direct_storage w file_path g) ++ tail /\
    forallb is_driver_event tail = true /\
    reports tail =
      match outcome_of (read_file_direct_storage w file_path g) with
      | Returned b =>
          [match cudf_contains w b regex_pattern with
           | inl what => Report_error file_path what
           | inr result => Report_match file_path regex_pattern result
           end]
      | Threw what => [Report_error file_path what]
      | Crashed => []
      end /\
    patterns tail =
      match outcome_of (read_file_direct_storage w file_path g) with
      | Returned b =>
          match cudf_contains w b regex_pattern with
          | inl what => [regex_pattern]
          | inr result => [regex_pattern; regex_pattern]
          end
      | _ => []
      end.
Proof.
  unfold process_file, try_catch, bind, emit, throw, outcome_of, state_of, trace_of.
  destruct (read_file_direct_storage w file_path g) as [[[b | what |] g1] e1]; cbn.
  - destruct (cudf_contains w b regex_pattern); cbn; eexists;
      (split; [reflexivity|]); (split; [rewrite <- ?app_assoc; reflexivity|]);
      repeat split.
  - eexists; (split; [reflexivity|]); (split; [reflexivity|]); repeat split.
  - exists []. rewrite app_nil_r. repeat split.
Qed.

Lemma reads_are_drained_driver (st : read_state) (tail rest : list event) :
  forallb is_driver_event tail = true ->
  reads_are_drained st (tail ++ rest) = reads_are_drained st rest.
Proof.
  induction tail as [| e tail IH]; [done|].
  cbn [forallb]. intros [He Ht]%andb_true_iff.
  destruct e; try discriminate He; cbn; auto.
Qed.

Lemma for_each_file_invariants (file_paths : list string) (g : globals) :
  only_appends g (state_of (for_each_file w regex_pattern file_paths g)) /\
  forallb (fun e => is_ingestion_event e || is_driver_event e)
    (trace_of (for_each_file w regex_pattern file_paths g)) = true /\
  forall rest,
    reads_are_drained Read_idle
      (trace_of (for_each_file w regex_pattern file_paths g) ++ rest) =
    reads_are_drained Read_idle rest.
Proof.
  revert g; induction file_paths as [| file_path paths IH]; intros g.
  - split; [apply only_appends_refl | done].
  - destruct (process_file_shape file_path g) as (tail & Hs & Ht & Hd & _).
    pose proof (read_only_appends w file_path g) as Hf.
    pose proof (read_events w file_path g) as He.
    pose proof (read_drained w file_path g) as Hdr.
    apply ingestion_events_quiet in He as (_ & _ & He).
    rewrite <- Hs in Hf. cbn [for_each_file]. unfold bind.
    destruct (process_file w regex_pattern file_path g) as [[o g1] e1].
    unfold state_of, trace_of in *; cbn [fst snd] in *. subst e1.
    assert (forallb (fun e => is_ingestion_event e || is_driver_event e) tail = true)
      as Hd'.
    { clear -Hd. induction tail as [| e t IHt]; [done|]. cbn in *.
      apply andb_true_iff in Hd as [-> Hd]. rewrite orb_true_r. auto. }
    destruct o as [[] | what |]; cbn [fst snd].
    + destruct (IH g1) as (I1 & I2 & I3).
      destruct (for_each_file w regex_pattern paths g1) as [[o2 g2] e2].
      cbn [fst snd] in *. split; [eapply only_appends_trans; eassumption|].
      split.
      * rewrite !forallb_app, He, Hd', I2. reflexivity.
      * intros rest. rewrite <- !app_assoc, Hdr, reads_are_drained_driver by assumption.
        apply I3.
    + split; [assumption|]. split; [rewrite forallb_app, He, Hd'; reflexivity|].
      intros rest. rewrite <- !app_assoc, Hdr. apply reads_are_drained_driver, Hd.
    + split; [assumption|]. split; [rewrite forallb_app, He, Hd'; reflexivity|].
      intros rest. rewrite <- !app_assoc, Hdr. apply reads_are_drained_driver, Hd.
Qed.

Lemma search_invariants (file_paths : list string) (g : globals) :
  only_appends g (state_of (search_files_with_regex w file_paths regex_pattern g)) /\
  forallb (fun e => is_ingestion_event e || is_driver_event e)
    (trace_of (search_files_with_regex w file_paths regex_pattern g)) = true /\
  reads_are_drained Read_idle
    (trace_of (search_files_with_regex w file_paths regex_pattern g)) = true.
Proof.
  destruct (for_each_file_invariants file_paths g) as (I1 & I2 & I3).
  specialize (I3 []). rewrite app_nil_r in I3.
  unfold search_files_with_regex, get_current_device_resource, bind, emit, throw, ret.
  destruct (rmm_failure w); cbn; [split; [apply only_appends_refl | done]|].
  destruct (for_each_file w regex_pattern file_paths g) as [[o2 g2] e2].
  unfold state_of, trace_of in *; cbn in *. auto.
Qed.

End Scan.


(** X7.  A scan never creates, replaces or releases a global: whatever the
    state it starts in, the list of paths and the outcome, the five device
    and queue pointers are what they were, the command list is the same
    object with possibly more commands recorded after the old ones, and the
    trace logs no creation and no release. *)
Theorem scan_keeps_globals (w : world) (file_paths : list string)
    (regex_pattern : string) (g : globals) :
  let run := search_files_with_regex w file_paths regex_pattern g in
  only_appends g (state_of run) /\
  (forall n, holds (state_of run) n = holds g n) /\
  released (trace_of run) = [] /\
  created (trace_of run) = [].
Proof.
  destruct (search_invariants w regex_pattern file_paths g) as (I1 & I2 & _).
  apply quiet_events in I2 as (Hr & Hc & _).
  repeat split; try assumption; try apply I1.
  destruct I1 as (A1 & A2 & A3 & A4 & A5 & x & Ax).
  intros []; cbn; rewrite ?A1, ?A2, ?A3, ?A4, ?A5, ?Ax; try reflexivity.
  destruct (commandList g); reflexivity.
Qed.

(** X8.  The DirectStorage read is always waited for.  In the trace of a
    scan, whatever the state, the paths and the failures, every
    [EnqueueReadFile] is followed by the [Submit] and then the [WaitForIdle]
    of the storage queue before any command list is submitted to the GPU,
    before any buffer is mapped, and before the scan ends. *)
Theorem scan_reads_are_drained (w : world) (file_paths : list string)
    (regex_pattern : string) (g : globals) :
  reads_are_drained Read_idle
    (trace_of (search_files_with_regex w file_paths regex_pattern g)) = true.
Proof.
  apply (search_invariants w regex_pattern file_paths g).
Qed.

(** ** The entry points together *)

Lemma holds_only_appends (g g' : globals) (n : global_name) :
  only_appends g g' -> holds g' n = holds g n.
Proof.
  intros (A1 & A2 & A3 & A4 & A5 & x & Ax).
  destruct n; cbn; rewrite ?A1, ?A2, ?A3, ?A4, ?A5, ?Ax; try reflexivity.
  destruct (commandList g); reflexivity.
Qed.

Lemma occurrences_app (n : global_name) (a b : list global_name) :
  occurrences n (a ++ b) = occurrences n a + occurrences n b.
Proof. unfold occurrences. rewrite List.filter_app, length_app. reflexivity. Qed.

Lemma released_app (a b : list event) : released (a ++ b) = released a ++ released b.
Proof. apply omap_app. Qed.

Lemma created_app (a b : list event) : created (a ++ b) = created a ++ created b.
Proof. apply omap_app. Qed.

Lemma calls_app (a b : list event) : calls (a ++ b) = calls a ++ calls b.
Proof. apply List.filter_app. Qed.

(** XWF_Run in terms of what its two callees do. *)
Lemma XWF_Run_unfold (w : world) (g : globals) :
  XWF_Run w g =
    match initialize_direct_storage w g with
    | (Returned _, g1, e1) =>
        match search_files_with_regex w run_file_paths run_regex_pattern g1 with
        | (Returned _, g2, e2) => (Returned 0%Z, g2, e1 ++ e2)
        | (Threw what, g2, e2) => (Returned 1%Z, g2, (e1 ++ e2) ++ [Ev_cerr_run what])
        | (Crashed, g2, e2) => (Crashed, g2, e1 ++ e2)
        end
    | (Threw what, g1, e1) => (Returned 1%Z, g1, e1 ++ [Ev_cerr_run what])
    | (Crashed, g1, e1) => (Crashed, g1, e1)
    end.
Proof.
  unfold XWF_Run, try_catch, bind, emit, ret.
  destruct (initialize_direct_storage w g) as [[[[] | what |] g1] e1]; cbn;
    rewrite ?app_nil_r; try reflexivity.
  destruct (search_files_with_regex w run_file_paths run_regex_pattern g1)
    as [[[[] | what |] g2] e2]; cbn; rewrite ?app_nil_r; reflexivity.
Qed.

(** Objects released, plus objects still held, are the objects held before
    plus the objects created: initialisation. *)
Lemma initialize_accounting (w : world) (g : globals) (n : global_name) :
  occurrences n (released (trace_of (initialize_direct_storage w g))) +
    held (state_of (initialize_direct_storage w g)) n =
  held g n + occurrences n (created (trace_of (initialize_direct_storage w g))).
Proof.
  init_cases w; destruct g as [[] [] [] [] [] []]; destruct n;
    unfold created, released; cbn;
    repeat (rewrite ?H1, ?H2, ?H3, ?H4, ?H5, ?H6; cbn); reflexivity.
Qed.

Lemma XWF_Exit_accounting (g : globals) (n : global_name) :
  state_of (XWF_Exit g) = never_initialised /\
  created (trace_of (XWF_Exit g)) = [] /\
  occurrences n (released (trace_of (XWF_Exit g))) = held g n.
Proof. destruct g as [[] [] [] [] [] []]; destruct n; repeat split. Qed.

Lemma XWF_Run_accounting (w : world) (g : globals) (n : global_name) :
  occurrences n (released (trace_of (XWF_Run w g))) + held (state_of (XWF_Run w g)) n =
  held g n + occurrences n (created (trace_of (XWF_Run w g))).
Proof.
  pose proof (initialize_accounting w g n) as Hi.
  rewrite XWF_Run_unfold.
  destruct (initialize_direct_storage w g) as [[[[] | what |] g1] e1];
    unfold state_of, trace_of in *; cbn [fst snd] in *.
  - pose proof (search_invariants w run_regex_pattern run_file_paths g1)
      as (I1 & I2 & _).
    apply quiet_events in I2 as (Hr & Hc & _).
    apply (holds_only_appends _ _ n) in I1.
    destruct (search_files_with_regex w run_file_paths run_regex_pattern g1)
      as [[[[] | what |] g2] e2];
      unfold state_of, trace_of, held in *; cbn [fst snd] in *;
      rewrite ?released_app, ?created_app, ?occurrences_app, ?Hr, ?Hc, ?I1;
      cbn; lia.
  - rewrite released_app, created_app, !occurrences_app. cbn. lia.
  - exact Hi.
Qed.

(** X9.  No global handle is lost track of.  For each of the six globals,
    across one XWF_Run the objects released plus the object still held
    equal the object held before plus the objects created; and across
    XWF_Run followed by XWF_Exit every object held before or created on
    the way has been released, whether or not the initialisation failed
    part-way. *)
Theorem global_handles_are_accounted_for (w : world) (g : globals)
    (n : global_name) :
  (let run := XWF_Run w g in
   occurrences n (released (trace_of run)) + held (state_of run) n =
   held g n + occurrences n (created (trace_of run))) /\
  (let both := (XWF_Run w ;;; XWF_Exit) g in
   state_of both = never_initialised /\
   occurrences n (released (trace_of both)) =
   held g n + occurrences n (created (trace_of both))).
Proof.
  pose proof (XWF_Run_accounting w g n) as Hrun.
  split; [exact Hrun|].
  assert (exists code, outcome_of (XWF_Run w g) = Returned code) as [code Hcode].
  { destruct (XWF_Run_outcome w g) as (g' & evs & -> & _). eauto. }
  unfold bind. destruct (XWF_Run w g) as [[o g1] e1].
  unfold outcome_of, state_of, trace_of in *; cbn [fst snd] in *. subst o.
  destruct (XWF_Exit_accounting g1 n) as (Hs & Hc & Hr).
  destruct (XWF_Exit g1) as [[o2 g2] e2].
  unfold state_of, trace_of in *; cbn [fst snd] in *.
  split; [assumption|].
  rewrite released_app, created_app, !occurrences_app, Hc, Hr. cbn. lia.
Qed.

(** X10.  A successful initialisation wipes the slate.  When no creation
    call fails, XWF_Run gives the same exit code and leaves the same globals
    whatever the globals held when it was called (in particular whatever an
    earlier run left recorded in the command list).  Its trace is the one
    of a run from null globals except that, in the initialisation, the
    creation call of each global that held an object is immediately
    preceded by the release of that object. *)
Theorem XWF_Run_forgets_prior_state (w : world) (g : globals) :
  first_failure w = None ->
  outcome_of (XWF_Run w g) = outcome_of (XWF_Run w never_initialised) /\
  state_of (XWF_Run w g) = state_of (XWF_Run w never_initialised) /\
  exists tail,
    trace_of (XWF_Run w never_initialised) =
      init_trace w never_initialised creation_order ++ tail /\
    trace_of (XWF_Run w g) = init_trace w g creation_order ++ tail.
Proof.
  intros Hok.
  destruct (initialize_success_state w g Hok) as (Ho & Hs & Ht).
  destruct (initialize_success_state w never_initialised Hok) as (Ho0 & Hs0 & Ht0).
  rewrite !XWF_Run_unfold.
  destruct (initialize_direct_storage w g) as [[o1 g1] e1].
  destruct (initialize_direct_storage w never_initialised) as [[o0 g0] e0].
  unfold outcome_of, state_of, trace_of in *; cbn [fst snd] in *. subst.
  destruct (search_files_with_regex w run_file_paths run_regex_pattern
              Examples.started) as [[[[] | what |] g2] e2];
    unfold state_of, trace_of; cbn [fst snd];
    (split; [reflexivity|]); (split; [reflexivity|]);
    rewrite <- ?app_assoc; eexists; split; reflexivity.
Qed.

(** ** The hypotheses above, met on the example disk *)

(** X3 on file1.txt when the allocator is out of memory: the fourth row. *)
Lemma ingestion_failure_table_witness :
  let what := "Failed to create GPU buffer for file: file1.txt" in
  let evs :=
    [Ev_OpenFile "file1.txt" S_OK; Ev_GetFileInformation "file1.txt" S_OK;
     Ev_CreateCommittedResource D3D12_HEAP_TYPE_DEFAULT 3 E_OUTOFMEMORY] in
  (what = "Failed to open file with DirectStorage: " +:+ "file1.txt" /\
   Examples.started = Examples.started /\
   exists hr, FAILED hr = true /\ evs = [Ev_OpenFile (c_str "file1.txt") hr]) \/
  (what = "Failed to get file size for: " +:+ "file1.txt" /\
   Examples.started = Examples.started /\
   exists hr, FAILED hr = true /\
     last evs = Some (Ev_GetFileInformation (c_str "file1.txt") hr)) \/
  (vector_failure Examples.out_of_memory
     (file_size Examples.out_of_memory (c_str "file1.txt")) = Some what /\
   Examples.started = Examples.started /\
   exists hr, FAILED hr = false /\
     last evs = Some (Ev_GetFileInformation (c_str "file1.txt") hr)) \/
  (what = "Failed to create GPU buffer for file: " +:+ "file1.txt" /\
   Examples.started = Examples.started /\
   exists Width hr, FAILED hr = true /\
     last evs = Some (Ev_CreateCommittedResource D3D12_HEAP_TYPE_DEFAULT Width hr)) \/
  (what = "Failed to create readback buffer for file: " +:+ "file1.txt" /\
   Examples.started = Examples.started /\
   exists Width hr, FAILED hr = true /\
     last evs = Some (Ev_CreateCommittedResource D3D12_HEAP_TYPE_READBACK Width hr)) \/
  (what = "Failed to map readback buffer for file: " +:+ "file1.txt" /\
   exists recorded hr,
     commandList Examples.started = Some recorded /\
     Examples.started =
       set_commandList (Some (recorded_after "file1.txt" recorded)) Examples.started /\
     In (Ev_ExecuteCommandLists (recorded_after "file1.txt" recorded)) evs /\
     FAILED hr = true /\ last evs = Some (Ev_Map hr)).
Proof.
  apply (ingestion_failure_table Examples.out_of_memory "file1.txt"
           "Failed to create GPU buffer for file: file1.txt"
           Examples.started Examples.started
           [Ev_OpenFile "file1.txt" S_OK; Ev_GetFileInformation "file1.txt" S_OK;
            Ev_CreateCommittedResource D3D12_HEAP_TYPE_DEFAULT 3 E_OUTOFMEMORY]).
  reflexivity.
Defined.

(** X4 on the three bytes of file1.txt. *)
Lemma ingestion_returns_only_if_witness :
  exists contents recorded,
    disk Examples.healthy !! c_str "file1.txt" = Some contents /\
    file_size Examples.healthy (c_str "file1.txt") <> 0%N /\
    FAILED (hr_OpenFile Examples.healthy (c_str "file1.txt")) = false /\
    FAILED (hr_GetFileInformation Examples.healthy (c_str "file1.txt")) = false /\
    vector_failure Examples.healthy
      (file_size Examples.healthy (c_str "file1.txt")) = None /\
    FAILED (hr_CreateCommittedResource Examples.healthy "file1.txt"
              D3D12_HEAP_TYPE_DEFAULT
              (file_size Examples.healthy (c_str "file1.txt"))) = false /\
    FAILED (hr_CreateCommittedResource Examples.healthy "file1.txt"
              D3D12_HEAP_TYPE_READBACK
              (file_size Examples.healthy (c_str "file1.txt"))) = false /\
    FAILED (hr_Map Examples.healthy "file1.txt") = false /\
    length Examples.foo = N.to_nat (file_size Examples.healthy (c_str "file1.txt")) /\
    (copy_retired Examples.healthy "file1.txt"
       (recorded_after "file1.txt" recorded) = true ->
     take (length contents) Examples.foo =
       take (N.to_nat (file_size Examples.healthy (c_str "file1.txt"))) contents) /\
    commandList Examples.started = Some recorded /\
    set_commandList (Some (recorded_after "file1.txt" [])) Examples.started =
      set_commandList (Some (recorded_after "file1.txt" recorded)) Examples.started.
Proof.
  apply (ingestion_returns_only_if Examples.healthy "file1.txt" Examples.started
           (set_commandList (Some (recorded_after "file1.txt" [])) Examples.started)
           Examples.foo
           (success_trace Examples.healthy "file1.txt" 3
              (recorded_after "file1.txt" []))).
  reflexivity.
Defined.

(** X5 on file1.txt ingested twice in a row. *)
Lemma second_ingestion_resubmits_first_witness :
  exists recorded,
    commandList Examples.started = Some recorded /\
    In (Ev_ExecuteCommandLists
          (recorded_after "file1.txt" (recorded_after "file1.txt" recorded)))
       (success_trace Examples.healthy "file1.txt" 3
          (recorded_after "file1.txt" (recorded_after "file1.txt" []))) /\
    commandList
      (set_commandList
         (Some (recorded_after "file1.txt" (recorded_after "file1.txt" [])))
         Examples.started) =
      Some (recorded_after "file1.txt" (recorded_after "file1.txt" recorded)).
Proof.
  apply (second_ingestion_resubmits_first Examples.healthy "file1.txt" "file1.txt"
           Examples.started
           (set_commandList (Some (recorded_after "file1.txt" [])) Examples.started)
           (set_commandList
              (Some (recorded_after "file1.txt" (recorded_after "file1.txt" [])))
              Examples.started)
           Examples.foo Examples.foo
           (success_trace Examples.healthy "file1.txt" 3
              (recorded_after "file1.txt" []))
           (success_trace Examples.healthy "file1.txt" 3
              (recorded_after "file1.txt" (recorded_after "file1.txt" []))));
    reflexivity.
Defined.

(** X10 on a second XWF_Run over the globals a first one initialised. *)
Lemma XWF_Run_forgets_prior_state_witness :
  outcome_of (XWF_Run Examples.healthy Examples.started) =
    outcome_of (XWF_Run Examples.healthy never_initialised) /\
  state_of (XWF_Run Examples.healthy Examples.started) =
    state_of (XWF_Run Examples.healthy never_initialised) /\
  exists tail,
    trace_of (XWF_Run Examples.healthy never_initialised) =
      init_trace Examples.healthy never_initialised creation_order ++ tail /\
    trace_of (XWF_Run Examples.healthy Examples.started) =
      init_trace Examples.healthy Examples.started creation_order ++ tail.
Proof.
  apply (XWF_Run_forgets_prior_state Examples.healthy Examples.started).
  reflexivity.
Defined.

(** DllMain does nothing, whatever the reason it is called for. *)
Lemma DllMain_inert (ul_reason_for_call : Z) (g : globals) :
  DllMain ul_reason_for_call g = (Returned 1%Z, g, []).
Proof.
  unfold DllMain, bind, ret.
  repeat (destruct (_ =? _)%Z; try reflexivity).
Qed.
